(** * Secure Notes backend: authentication and session core

    A shallow embedding of [src/auth.py], [src/security.py],
    [src/api/auth_routes.py] and [src/api/notes_routes.py], with models of
    what the code delegates to: the Python built-ins on [str] and [int],
    python-jose's [jwt.encode]/[jwt.decode], passlib's bcrypt
    [CryptContext], and the SQLAlchemy session over the tables of
    [src/models.py].

    Tokens and password hashes are symbolic: a signature verifies exactly
    under the key that produced it, and the bcrypt digest is a parameter.
    Time is the clock reading in whole epoch seconds, one reading per
    request. *)

From Stdlib Require Import List ZArith NArith Bool String Ascii Lia.
From Stdlib Require Import Permutation.
Import ListNotations.
Open Scope Z_scope.

(** ** Python values *)

Module Py.

(** A Python [str] is a sequence of Unicode code points. *)
Definition str := list N.

(** An ASCII literal of the source, as a Python [str]. *)
Definition lit (s : string) : str := map N_of_ascii (list_ascii_of_string s).

Definition str_eq_dec : forall a b : str, {a = b} + {a <> b} :=
  list_eq_dec N.eq_dec.

Definition eqb (a b : str) : bool := if str_eq_dec a b then true else false.

(** Code points of the digit zero of every script of general category Nd
    (Unicode 14.0, the table of CPython 3.11): the ten code points from
    each of them are the decimal digits 0..9 of that script.  These are the
    characters [str.isdecimal] accepts and [int()] converts. *)
Definition decimal_zeros : list N :=
  [48; 1632; 1776; 1984; 2406; 2534; 2662; 2790; 2918; 3046; 3174; 3302;
   3430; 3558; 3664; 3792; 3872; 4160; 4240; 6112; 6160; 6470; 6608; 6784;
   6800; 6992; 7088; 7232; 7248; 42528; 43216; 43264; 43472; 43504; 43600;
   44016; 65296; 66720; 68912; 69734; 69872; 69942; 70096; 70384; 70736;
   70864; 71248; 71360; 71472; 71904; 72016; 72784; 73040; 73120; 92768;
   92864; 93008; 120782; 120792; 120802; 120812; 120822; 123200; 123632;
   125264; 130032]%N.

(** Characters with Numeric_Type=Digit that are not decimal: superscripts,
    subscripts, circled and parenthesised digits and the like.
    [str.isdigit] accepts them, [int()] does not. *)
Definition digit_only_ranges : list (N * N) :=
  [(178, 179); (185, 185); (4969, 4977); (6618, 6618); (8304, 8304);
   (8308, 8313); (8320, 8329); (9312, 9320); (9332, 9340); (9352, 9360);
   (9450, 9450); (9461, 9469); (9471, 9471); (10102, 10110);
   (10112, 10120); (10122, 10130); (68160, 68163); (69216, 69224);
   (69714, 69722); (127232, 127242)]%N.

(** [unicodedata.decimal(c)], when [c] has one. *)
Definition decimal_value (c : N) : option N :=
  match find (fun z => (z <=? c) && (c <? z + 10))%N decimal_zeros with
  | Some z => Some (c - z)%N
  | None => None
  end.

Definition ch_isdecimal (c : N) : bool :=
  match decimal_value c with Some _ => true | None => false end.

Definition ch_isdigit (c : N) : bool :=
  ch_isdecimal c
  || existsb (fun r => (fst r <=? c) && (c <=? snd r))%N digit_only_ranges.

(** [s.isdigit()]: every character is a digit and there is at least one. *)
Definition isdigit (s : str) : bool :=
  match s with
  | [] => false
  | _ => forallb ch_isdigit s
  end.

(** [s.isdecimal()]. *)
Definition isdecimal (s : str) : bool :=
  match s with
  | [] => false
  | _ => forallb ch_isdecimal s
  end.

(** Base-10 accumulation of decimal digits, left to right; [None] at the
    first character without a decimal value. *)
Fixpoint int_from (acc : N) (s : str) : option N :=
  match s with
  | [] => Some acc
  | c :: t =>
      match decimal_value c with
      | Some d => int_from (10 * acc + d) t
      | None => None
      end
  end.

(** [int(s)] for a string [s] on which [isdigit] holds, the only strings
    the program converts: such a string has no sign, blank or underscore,
    so [int] succeeds exactly when every character is a decimal digit and
    raises [ValueError] ([None] here) otherwise.  Python integers are
    unbounded; the interpreter's optional cap on the number of digits it
    converts is not modelled. *)
Definition int (s : str) : option Z :=
  match s with
  | [] => None
  | _ => option_map Z.of_N (int_from 0 s)
  end.

(** The decimal digits of [n], most significant first. *)
Fixpoint digits_fuel (fuel : nat) (n : N) : str :=
  match fuel with
  | O => []
  | S f =>
      if (n <? 10)%N then [(48 + n)%N]
      else digits_fuel f (n / 10)%N ++ [(48 + n mod 10)%N]
  end.

Definition str_of_N (n : N) : str := digits_fuel (S (N.to_nat (N.log2 n))) n.

(** [str(z)] for an [int]. *)
Definition str_of_int (z : Z) : str :=
  match z with
  | Zneg p => 45%N :: str_of_N (Npos p)
  | _ => str_of_N (Z.to_N z)
  end.

End Py.

(** ** Exceptions and results *)

(** The exceptions that can leave the modelled functions: the [HTTPException]
    the handlers raise on purpose, and the two built-in errors that the
    conversions on a token subject can raise. *)
Inductive exn :=
  | HTTPException (status_code : Z) (detail : string)
  | ValueError
  | AttributeError.

Inductive result (A : Type) :=
  | Ok (a : A)
  | Raise (e : exn).
Arguments Ok {A} a.
Arguments Raise {A} e.

Definition bind {A B} (r : result A) (k : A -> result B) : result B :=
  match r with
  | Ok a => k a
  | Raise e => Raise e
  end.

Notation "x <- r ;; k" := (bind r (fun x => k))
  (at level 100, r at next level, right associativity).

Definition HTTP_401_UNAUTHORIZED : Z := 401.
Definition HTTP_404_NOT_FOUND : Z := 404.
Definition HTTP_409_CONFLICT : Z := 409.

(** ** python-jose: signed tokens *)

Module Jose.

(** Values a claim can hold. *)
Inductive json :=
  | JNull
  | JBool (b : bool)
  | JInt (z : Z)
  | JStr (s : Py.str).

(** The claim set of a token, over the four claims this service writes and
    reads.  [exp] and [iat], when present, are integers (NumericDate).
    Tokens that carry further registered claims ([aud], [nbf], ...) or a
    time that is not an integer are outside this model. *)
Record claims := {
  sub : option json;
  type : option json;
  iat : option Z;
  exp : option Z
}.

(** Token strings, symbolically: a compact JWS whose payload is a claim set
    and whose signature was computed under algorithm [alg] with [key], or
    any other string (not three segments, bad base64, payload that is not
    a JSON object).  A signature verifies exactly under the key and
    algorithm that produced it. *)
Inductive token :=
  | Jws (alg key : Py.str) (payload : claims)
  | Malformed (raw : Py.str).

(** [JWTError] and its two subclasses. *)
Inductive error :=
  | JWTError
  | ExpiredSignatureError
  | JWTClaimsError.

(** [jwt.encode(claims, key, algorithm=alg)]. *)
Definition encode (c : claims) (key alg : Py.str) : token := Jws alg key c.

(** [_validate_exp]: with the default leeway of 0, a token is expired when
    [exp < now], where [now] is the verification time in whole seconds; a
    token without [exp] is not checked. *)
Definition validate_exp (c : claims) (now : Z) : bool :=
  match exp c with
  | Some e => negb (e <? now)
  | None => true
  end.

(** [_validate_sub]: a [sub] claim, when present, must be a string. *)
Definition validate_sub (c : claims) : bool :=
  match sub c with
  | None | Some (JStr _) => true
  | Some _ => false
  end.

(** [jwt.decode(token, key, algorithms=algs)] at verification time [now]:
    the signature check of [jws.verify], then the claim checks in the
    order of [_validate_claims]. *)
Definition decode (t : token) (key : Py.str) (algs : list Py.str) (now : Z)
  : error + claims :=
  match t with
  | Malformed _ => inl JWTError
  | Jws alg k c =>
      if negb (existsb (Py.eqb alg) algs) then inl JWTError
      else if negb (Py.eqb k key) then inl JWTError
      else if negb (validate_exp c now) then inl ExpiredSignatureError
      else if negb (validate_sub c) then inl JWTClaimsError
      else inr c
  end.

End Jose.

(** ** passlib: the bcrypt context *)

Module Passlib.

(** Stored hash strings, symbolically: a well-formed bcrypt hash string
    carrying its salt and its checksum, or any other string (one the
    context cannot identify as bcrypt, or cannot parse). *)
Inductive hash_string :=
  | Bcrypt (salt checksum : Py.str)
  | NotAHash (raw : Py.str).

Section Context.

(** The bcrypt digest of a secret under a salt.  [None] when the handler
    refuses the secret and raises a [ValueError] subclass (passlib checks
    the secret before hashing it). *)
Variable bcrypt_digest : Py.str -> Py.str -> option Py.str.

(** [CryptContext.hash(secret)], with the salt the call draws. *)
Definition hash (salt secret : Py.str) : result hash_string :=
  match bcrypt_digest salt secret with
  | Some d => Ok (Bcrypt salt d)
  | None => Raise ValueError
  end.

(** [CryptContext.verify(secret, hash)]: identifies the scheme of [hash]
    and raises [UnknownHashError] (a [ValueError]) when it has none;
    otherwise recomputes the checksum with the embedded salt and
    compares. *)
Definition verify (secret : Py.str) (h : hash_string) : result bool :=
  match h with
  | NotAHash _ => Raise ValueError
  | Bcrypt salt checksum =>
      match bcrypt_digest salt secret with
      | Some d => Ok (Py.eqb d checksum)
      | None => Raise ValueError
      end
  end.

End Context.

End Passlib.

(** ** src/models.py and the SQLAlchemy session *)

Module User.
Record t := {
  id : Z;
  email : Py.str;
  password_hash : Passlib.hash_string;
  created_at : Z
}.
End User.

Module Note.
Record t := {
  id : Z;
  user_id : Z;
  title : Py.str;
  content : Py.str;
  created_at : Z;
  updated_at : Z
}.
End Note.

(** The two tables, rows in insertion order. *)
Record Database := {
  users : list User.t;
  notes : list Note.t
}.

Definition empty_db : Database := {| users := []; notes := [] |}.

(** [db.get(User, k)] and [db.get(Note, k)]: the row with primary key [k].
    Keys are unbounded integers; the width of the store's integer column is
    not modelled. *)
Definition get_user (db : Database) (k : Z) : option User.t :=
  find (fun u => User.id u =? k) (users db).

Definition get_note_row (db : Database) (k : Z) : option Note.t :=
  find (fun n => Note.id n =? k) (notes db).

(** [db.scalar(select(User).where(User.email == e))]: the first row with
    that email, or [None]. *)
Definition user_by_email (db : Database) (e : Py.str) : option User.t :=
  find (fun u => Py.eqb (User.email u) e) (users db).

(** The integer primary key the store gives a new row: one more than the
    largest key in use, 1 in an empty table. *)
Definition next_id (ids : list Z) : Z := 1 + fold_right Z.max 0 ids.

(** [db.add(User(email=e, password_hash=h)); db.commit()] at store time
    [now] (the [server_default] of [created_at]). *)
Definition add_user (db : Database) (e : Py.str) (h : Passlib.hash_string)
    (now : Z) : Database :=
  {| users := users db ++
       [{| User.id := next_id (map User.id (users db));
           User.email := e;
           User.password_hash := h;
           User.created_at := now |}];
     notes := notes db |}.

(** [db.add(Note(user_id=.., title=.., content=..)); db.commit();
    db.refresh(note)]: the stored row and the new state. *)
Definition add_note (db : Database) (uid : Z) (t c : Py.str) (now : Z)
    : Note.t * Database :=
  let note := {| Note.id := next_id (map Note.id (notes db));
                 Note.user_id := uid;
                 Note.title := t;
                 Note.content := c;
                 Note.created_at := now;
                 Note.updated_at := now |} in
  (note, {| users := users db; notes := notes db ++ [note] |}).

(** [db.add(note); db.commit()] for a row already in the table: the row
    with that key is replaced. *)
Definition put_note (db : Database) (note : Note.t) : Database :=
  {| users := users db;
     notes := map (fun n => if Note.id n =? Note.id note then note else n)
                  (notes db) |}.

(** [db.delete(note); db.commit()]. *)
Definition delete_note_row (db : Database) (note : Note.t) : Database :=
  {| users := users db;
     notes := filter (fun n => negb (Note.id n =? Note.id note)) (notes db) |}.

(** [ORDER BY updated_at DESC]: insertion sort; a row goes in front of the
    first row that is not newer, so rows with equal keys keep their table
    order, as the store returns them. *)
Fixpoint insert_desc (x : Note.t) (l : list Note.t) : list Note.t :=
  match l with
  | [] => [x]
  | y :: t =>
      if Note.updated_at y <=? Note.updated_at x then x :: y :: t
      else y :: insert_desc x t
  end.

Definition order_by_updated_desc (l : list Note.t) : list Note.t :=
  fold_right insert_desc [] l.

(** ** src/schemas.py *)

Module Message.
Record t := { message : string }.
End Message.

Module SignupRequest.
Record t := { email : Py.str; password : Py.str }.
End SignupRequest.

Module LoginRequest.
Record t := { email : Py.str; password : Py.str }.
End LoginRequest.

Module TokenResponse.
Record t := {
  access_token : Jose.token;
  refresh_token : Jose.token;
  token_type : string
}.
End TokenResponse.

Module RefreshRequest.
Record t := { refresh_token : Jose.token }.
End RefreshRequest.

Module NoteCreate.
Record t := { title : Py.str; content : Py.str }.
End NoteCreate.

Module NoteUpdate.
Record t := { title : option Py.str; content : option Py.str }.
End NoteUpdate.

(** ** Process configuration (src/auth.py, module level) *)

Record Config := {
  SECRET_KEY : Py.str;
  ALGORITHM : Py.str;
  ACCESS_TOKEN_EXPIRE_MINUTES : Z;
  REFRESH_TOKEN_EXPIRE_DAYS : Z
}.

(** The values taken when the environment sets none. *)
Definition default_config : Config :=
  {| SECRET_KEY := Py.lit "change_me";
     ALGORITHM := Py.lit "HS256";
     ACCESS_TOKEN_EXPIRE_MINUTES := 30;
     REFRESH_TOKEN_EXPIRE_DAYS := 7 |}.

(** Truth value of a claim read with [payload.get]. *)
Definition truthy (v : option Jose.json) : bool :=
  match v with
  | None | Some Jose.JNull => false
  | Some (Jose.JBool b) => b
  | Some (Jose.JInt z) => negb (z =? 0)
  | Some (Jose.JStr s) => match s with [] => false | _ => true end
  end.

(** [v != s] for a claim [v] and a string literal [s]. *)
Definition ne_str (v : option Jose.json) (s : Py.str) : bool :=
  match v with
  | Some (Jose.JStr t) => negb (Py.eqb t s)
  | _ => true
  end.

Section Service.

(** The configuration read at start-up, the bcrypt digest behind the
    password context, and the store's [ILIKE] (pattern first). *)
Variable cfg : Config.
Variable bcrypt_digest : Py.str -> Py.str -> option Py.str.
Variable ilike : Py.str -> Py.str -> bool.

(** *** src/security.py *)

(** The salt is what [hash] draws at random. *)
Definition hash_password (salt password : Py.str)
  : result Passlib.hash_string :=
  Passlib.hash bcrypt_digest salt password.

Definition verify_password (plain_password : Py.str)
    (password_hash : Passlib.hash_string) : result bool :=
  Passlib.verify bcrypt_digest plain_password password_hash.

(** *** src/auth.py

    [now] is the clock reading in whole epoch seconds; [expires_delta] is
    in seconds. *)

Definition _create_token (subject token_type : Py.str) (expires_delta : Z)
    (now : Z) : Jose.token :=
  let to_encode :=
    {| Jose.sub := Some (Jose.JStr subject);
       Jose.type := Some (Jose.JStr token_type);
       Jose.iat := Some now;
       Jose.exp := Some (now + expires_delta) |} in
  Jose.encode to_encode (SECRET_KEY cfg) (ALGORITHM cfg).

Definition create_access_token (user_id : Z) (now : Z) : Jose.token :=
  _create_token (Py.str_of_int user_id) (Py.lit "access")
    (60 * ACCESS_TOKEN_EXPIRE_MINUTES cfg) now.

Definition create_refresh_token (user_id : Z) (now : Z) : Jose.token :=
  _create_token (Py.str_of_int user_id) (Py.lit "refresh")
    (86400 * REFRESH_TOKEN_EXPIRE_DAYS cfg) now.

Definition _decode_token (token : Jose.token) (now : Z)
  : result Jose.claims :=
  match Jose.decode token (SECRET_KEY cfg) [ALGORITHM cfg] now with
  | inr payload => Ok payload
  | inl _ => Raise (HTTPException HTTP_401_UNAUTHORIZED "Invalid token")
  end.

Definition verify_refresh_token (refresh_token : Jose.token) (now : Z)
  : result Z :=
  payload <- _decode_token refresh_token now ;;
  if ne_str (Jose.type payload) (Py.lit "refresh") then
    Raise (HTTPException HTTP_401_UNAUTHORIZED "Invalid refresh token")
  else
    match Jose.sub payload with
    | Some (Jose.JStr sub) =>
        if negb (truthy (Some (Jose.JStr sub))) || negb (Py.isdigit sub) then
          Raise (HTTPException HTTP_401_UNAUTHORIZED "Invalid refresh token")
        else
          match Py.int sub with
          | Some n => Ok n
          | None => Raise ValueError
          end
    | sub =>
        (* [sub.isdigit()] on a value that is not a [str] *)
        if negb (truthy sub) then
          Raise (HTTPException HTTP_401_UNAUTHORIZED "Invalid refresh token")
        else Raise AttributeError
    end.

Definition get_current_user (token : Jose.token) (db : Database) (now : Z)
  : result User.t :=
  payload <- _decode_token token now ;;
  if ne_str (Jose.type payload) (Py.lit "access") then
    Raise (HTTPException HTTP_401_UNAUTHORIZED "Invalid access token")
  else
    match Jose.sub payload with
    | Some (Jose.JStr sub) =>
        if negb (truthy (Some (Jose.JStr sub))) || negb (Py.isdigit sub) then
          Raise (HTTPException HTTP_401_UNAUTHORIZED "Invalid access token")
        else
          match Py.int sub with
          | Some n =>
              match get_user db n with
              | Some user => Ok user
              | None =>
                  Raise (HTTPException HTTP_401_UNAUTHORIZED "User not found")
              end
          | None => Raise ValueError
          end
    | sub =>
        if negb (truthy sub) then
          Raise (HTTPException HTTP_401_UNAUTHORIZED "Invalid access token")
        else Raise AttributeError
    end.

(** *** src/api/auth_routes.py

    A route returns its response, or the exception it raised, together
    with the state of the store after the request. *)

Definition signup (payload : SignupRequest.t) (salt : Py.str) (now : Z)
    (db : Database) : result Message.t * Database :=
  match user_by_email db (SignupRequest.email payload) with
  | Some _ =>
      (Raise (HTTPException HTTP_409_CONFLICT "Email already registered"), db)
  | None =>
      match hash_password salt (SignupRequest.password payload) with
      | Raise e => (Raise e, db)
      | Ok h =>
          (Ok {| Message.message := "User created" |},
           add_user db (SignupRequest.email payload) h now)
      end
  end.

Definition login (payload : LoginRequest.t) (now : Z) (db : Database)
  : result TokenResponse.t * Database :=
  match user_by_email db (LoginRequest.email payload) with
  | None =>
      (Raise (HTTPException HTTP_401_UNAUTHORIZED "Invalid credentials"), db)
  | Some user =>
      match verify_password (LoginRequest.password payload)
              (User.password_hash user) with
      | Raise e => (Raise e, db)
      | Ok false =>
          (Raise (HTTPException HTTP_401_UNAUTHORIZED "Invalid credentials"),
           db)
      | Ok true =>
          (Ok {| TokenResponse.access_token :=
                   create_access_token (User.id user) now;
                 TokenResponse.refresh_token :=
                   create_refresh_token (User.id user) now;
                 TokenResponse.token_type := "bearer" |}, db)
      end
  end.

Definition refresh (payload : RefreshRequest.t) (now : Z) (db : Database)
  : result TokenResponse.t * Database :=
  match verify_refresh_token (RefreshRequest.refresh_token payload) now with
  | Raise e => (Raise e, db)
  | Ok user_id =>
      match get_user db user_id with
      | None =>
          (Raise (HTTPException HTTP_401_UNAUTHORIZED "User not found"), db)
      | Some user =>
          (Ok {| TokenResponse.access_token :=
                   create_access_token (User.id user) now;
                 TokenResponse.refresh_token :=
                   create_refresh_token (User.id user) now;
                 TokenResponse.token_type := "bearer" |}, db)
      end
  end.

(** *** src/api/notes_routes.py

    [token] is the bearer token of the request: the [get_current_user]
    dependency runs before the body of the route. *)

Definition not_found {A} : result A :=
  Raise (HTTPException HTTP_404_NOT_FOUND "Note not found").

Definition list_notes (token : Jose.token) (q : option Py.str)
    (limit offset : Z) (now : Z) (db : Database)
  : result (list Note.t) * Database :=
  match get_current_user token db now with
  | Raise e => (Raise e, db)
  | Ok user =>
      let stmt :=
        filter (fun n => Note.user_id n =? User.id user) (notes db) in
      let stmt :=
        match q with
        | Some (c :: q') =>
            let like := Py.lit "%" ++ (c :: q') ++ Py.lit "%" in
            filter (fun n => ilike like (Note.title n)
                             || ilike like (Note.content n)) stmt
        | _ => stmt
        end in
      let stmt :=
        firstn (Z.to_nat limit)
          (skipn (Z.to_nat offset) (order_by_updated_desc stmt)) in
      (Ok stmt, db)
  end.

Definition create_note (token : Jose.token) (payload : NoteCreate.t)
    (now : Z) (db : Database) : result Note.t * Database :=
  match get_current_user token db now with
  | Raise e => (Raise e, db)
  | Ok user =>
      let (note, db') :=
        add_note db (User.id user) (NoteCreate.title payload)
          (NoteCreate.content payload) now in
      (Ok note, db')
  end.

Definition get_note (token : Jose.token) (note_id : Z) (now : Z)
    (db : Database) : result Note.t * Database :=
  match get_current_user token db now with
  | Raise e => (Raise e, db)
  | Ok user =>
      match get_note_row db note_id with
      | None => (not_found, db)
      | Some note =>
          if negb (Note.user_id note =? User.id user) then (not_found, db)
          else (Ok note, db)
      end
  end.

(** The store stamps [updated_at] when the commit writes a changed
    column. *)
Definition update_note (token : Jose.token) (note_id : Z)
    (payload : NoteUpdate.t) (now : Z) (db : Database)
  : result Note.t * Database :=
  match get_current_user token db now with
  | Raise e => (Raise e, db)
  | Ok user =>
      match get_note_row db note_id with
      | None => (not_found, db)
      | Some note =>
          if negb (Note.user_id note =? User.id user) then (not_found, db)
          else
            let title :=
              match NoteUpdate.title payload with
              | Some t => t
              | None => Note.title note
              end in
            let content :=
              match NoteUpdate.content payload with
              | Some c => c
              | None => Note.content note
              end in
            let changed :=
              negb (Py.eqb title (Note.title note)
                    && Py.eqb content (Note.content note)) in
            let note' :=
              {| Note.id := Note.id note;
                 Note.user_id := Note.user_id note;
                 Note.title := title;
                 Note.content := content;
                 Note.created_at := Note.created_at note;
                 Note.updated_at :=
                   if changed then now else Note.updated_at note |} in
            (Ok note', put_note db note')
      end
  end.

Definition delete_note (token : Jose.token) (note_id : Z) (now : Z)
    (db : Database) : result unit * Database :=
  match get_current_user token db now with
  | Raise e => (Raise e, db)
  | Ok user =>
      match get_note_row db note_id with
      | None => (not_found, db)
      | Some note =>
          if negb (Note.user_id note =? User.id user) then (not_found, db)
          else (Ok tt, delete_note_row db note)
      end
  end.

End Service.

(** ** Auxiliary definitions for the statements *)

(** Every user row has a key the store could have assigned. *)
Definition positive_ids (db : Database) : Prop :=
  Forall (fun u => 1 <= User.id u) (users db).

(** Number of user rows with a given email. *)
Definition count_email (e : Py.str) (db : Database) : nat :=
  List.length (filter (fun u => Py.eqb (User.email u) e) (users db)).

(** A sequence of signup requests, each with the salt drawn and the store
    time of the request: the responses in order and the final state. *)
Fixpoint signups (digest : Py.str -> Py.str -> option Py.str)
    (reqs : list (SignupRequest.t * Py.str * Z)) (db : Database)
  : list (result Message.t) * Database :=
  match reqs with
  | [] => ([], db)
  | (payload, salt, now) :: rest =>
      let (r, db') := signup digest payload salt now db in
      let (rs, db'') := signups digest rest db' in
      (r :: rs, db'')
  end.

(** A token is presented in time when its [exp], if any, is not before the
    verification time. *)
Definition unexpired (payload : Jose.claims) (now : Z) : Prop :=
  Jose.validate_exp payload now = true.

(** The 401 response with a given detail. *)
Definition unauthorized {A} (detail : string) : result A :=
  Raise (HTTPException HTTP_401_UNAUTHORIZED detail).

(** A token signed with the configured key and algorithm. *)
Definition signed (cfg : Config) (payload : Jose.claims) : Jose.token :=
  Jose.Jws (ALGORITHM cfg) (SECRET_KEY cfg) payload.

(** A concrete digest for examples: refuses secrets with a NUL character. *)
Definition sample_digest (salt secret : Py.str) : option Py.str :=
  if existsb (N.eqb 0) secret then None else Some (salt ++ secret).

(** A store for examples: two users, and one note that belongs to the
    first. *)
Definition alice : User.t :=
  {| User.id := 1;
     User.email := Py.lit "a@x.com";
     User.password_hash :=
       Passlib.Bcrypt (Py.lit "salt-a") (Py.lit "salt-alongenough1");
     User.created_at := 100 |}.

Definition bob : User.t :=
  {| User.id := 2;
     User.email := Py.lit "b@x.com";
     User.password_hash :=
       Passlib.Bcrypt (Py.lit "salt-b") (Py.lit "salt-bhunter2hunter2");
     User.created_at := 150 |}.

Definition alice_note : Note.t :=
  {| Note.id := 1;
     Note.user_id := 1;
     Note.title := Py.lit "t";
     Note.content := Py.lit "c";
     Note.created_at := 200;
     Note.updated_at := 200 |}.

Definition sample_db : Database :=
  {| users := [alice; bob]; notes := [alice_note] |}.

(** A pattern match for examples: substring search is not needed there. *)
Definition sample_ilike (pattern text : Py.str) : bool := true.

(** The constraints of [src/models.py] on keys: primary keys are unique in
    each table and [users.email] has a unique index. *)
Definition unique_keys (db : Database) : Prop :=
  NoDup (map User.id (users db))
  /\ NoDup (map User.email (users db))
  /\ NoDup (map Note.id (notes db)).


(** [Field(..., max_length=200)] on [NoteBase.title], and
    [Field(None, max_length=200)] on [NoteUpdate.title]: what a request body
    satisfies when the route body runs. *)
Definition NoteCreate_valid (payload : NoteCreate.t) : Prop :=
  (List.length (NoteCreate.title payload) <= 200)%nat.

Definition NoteUpdate_valid (payload : NoteUpdate.t) : Prop :=
  match NoteUpdate.title payload with
  | Some t => (List.length t <= 200)%nat
  | None => True
  end.

(** Every stored title fits the [String(200)] column. *)
Definition titles_fit (db : Database) : Prop :=
  Forall (fun n => (List.length (Note.title n) <= 200)%nat) (notes db).

(** [Query(100, ge=1, le=200)] on [limit] and [Query(0, ge=0)] on [offset]:
    what the query of a listing satisfies when the route body runs. *)
Definition list_query_valid (limit offset : Z) : Prop :=
  1 <= limit <= 200 /\ 0 <= offset.

(** The largest integer the store takes as a key or binds as a parameter
    (SQLite's signed 64-bit integer), and the interpreter's default cap on
    the number of digits [int()] converts. *)
Definition MAX_STORE_INTEGER : Z := 2 ^ 63 - 1.
Definition INT_MAX_STR_DIGITS : Z := 4300.

(** A subject inside both limits: short enough for [int()], and converting
    to an integer the store can look up. *)
Definition subject_in_range (s : Py.str) : Prop :=
  Z.of_nat (List.length s) <= INT_MAX_STR_DIGITS
  /\ forall n, Py.int s = Some n -> n <= MAX_STORE_INTEGER.

(** A store for examples of listings: the first user has four notes, three
    of them updated in the same second, and the second user has one. *)
Definition note_at (k owner updated : Z) : Note.t :=
  {| Note.id := k;
     Note.user_id := owner;
     Note.title := Py.lit "t";
     Note.content := Py.lit "c";
     Note.created_at := 100;
     Note.updated_at := updated |}.

Definition busy_db : Database :=
  {| users := [alice; bob];
     notes := [note_at 1 1 200; note_at 2 1 200; note_at 3 1 300;
               note_at 4 2 200; note_at 5 1 200] |}.

(** The notes of one user, in table order. *)
Definition notes_of (uid : Z) (db : Database) : list Note.t :=
  filter (fun n => Note.user_id n =? uid) (notes db).

(** ** Python strings *)

Lemma decimal_value_ascii (d : N) :
  (d < 10)%N -> Py.decimal_value (48 + d) = Some d.
Proof.
  intros Hd. unfold Py.decimal_value, Py.decimal_zeros. cbn [find].
  assert (H1 : (48 <=? 48 + d)%N = true) by (apply N.leb_le; lia).
  assert (H2 : (48 + d <? 48 + 10)%N = true) by (apply N.ltb_lt; lia).
  rewrite H1, H2. cbn [andb]. f_equal. lia.
Qed.

Lemma ch_isdigit_ascii (d : N) : (d < 10)%N -> Py.ch_isdigit (48 + d) = true.
Proof.
  intros Hd. unfold Py.ch_isdigit, Py.ch_isdecimal.
  now rewrite decimal_value_ascii.
Qed.

Lemma int_from_app (s t : Py.str) : forall a,
  Py.int_from a (s ++ t) =
  match Py.int_from a s with
  | Some b => Py.int_from b t
  | None => None
  end.
Proof.
  induction s as [|c s IH]; intros a; cbn [app Py.int_from]; [reflexivity|].
  destruct (Py.decimal_value c); [apply IH | reflexivity].
Qed.

Lemma digits_fuel_value (f : nat) : forall n,
  (n < 2 ^ N.of_nat f)%N -> Py.int_from 0 (Py.digits_fuel f n) = Some n.
Proof.
  induction f as [|f IH]; intros n Hn.
  - cbn in Hn. assert (n = 0%N) by lia. subst. reflexivity.
  - cbn [Py.digits_fuel]. destruct (n <? 10)%N eqn:E.
    + apply N.ltb_lt in E. cbn [Py.int_from].
      rewrite (decimal_value_ascii n E). f_equal.
    + apply N.ltb_ge in E. rewrite int_from_app, IH.
      * cbn [Py.int_from].
        rewrite decimal_value_ascii by (apply N.mod_upper_bound; lia).
        f_equal. symmetry. apply N.div_mod'.
      * rewrite Nat2N.inj_succ, N.pow_succ_r' in Hn.
        apply N.Div0.div_lt_upper_bound; lia.
Qed.

Lemma digits_fuel_isdigit (f : nat) : forall n,
  forallb Py.ch_isdigit (Py.digits_fuel f n) = true.
Proof.
  induction f as [|f IH]; intros n; cbn [Py.digits_fuel]; [reflexivity|].
  destruct (n <? 10)%N eqn:E.
  - apply N.ltb_lt in E. cbn [forallb]. now rewrite ch_isdigit_ascii.
  - rewrite forallb_app, IH. cbn [forallb andb].
    rewrite ch_isdigit_ascii; [reflexivity|]. apply N.mod_upper_bound. lia.
Qed.

Lemma digits_fuel_nonempty (f : nat) (n : N) : Py.digits_fuel (S f) n <> [].
Proof.
  cbn [Py.digits_fuel]. destruct (n <? 10)%N; [discriminate|].
  destruct (Py.digits_fuel f (n / 10)); discriminate.
Qed.

Lemma str_of_N_fuel (n : N) : (n < 2 ^ N.of_nat (S (N.to_nat (N.log2 n))))%N.
Proof.
  rewrite Nat2N.inj_succ, N2Nat.id.
  destruct (N.eq_dec n 0) as [->|Hn]; [reflexivity|].
  apply N.log2_spec. lia.
Qed.

Lemma int_str_of_N (n : N) : Py.int (Py.str_of_N n) = Some (Z.of_N n).
Proof.
  unfold Py.int, Py.str_of_N.
  destruct (Py.digits_fuel (S (N.to_nat (N.log2 n))) n) eqn:E.
  - now apply digits_fuel_nonempty in E.
  - rewrite <- E, digits_fuel_value by apply str_of_N_fuel. reflexivity.
Qed.

Lemma isdigit_str_of_N (n : N) : Py.isdigit (Py.str_of_N n) = true.
Proof.
  unfold Py.isdigit, Py.str_of_N.
  destruct (Py.digits_fuel (S (N.to_nat (N.log2 n))) n) eqn:E.
  - now apply digits_fuel_nonempty in E.
  - rewrite <- E. apply digits_fuel_isdigit.
Qed.

(** [int(str(n)) == n] and [str(n).isdigit()] for a non-negative [n]. *)
Lemma int_str_of_int (n : Z) :
  0 <= n ->
  Py.int (Py.str_of_int n) = Some n /\ Py.isdigit (Py.str_of_int n) = true.
Proof.
  intros Hn. unfold Py.str_of_int. destruct n as [|p|p]; try lia.
  - split; reflexivity.
  - rewrite int_str_of_N, isdigit_str_of_N.
    split; [f_equal; now rewrite Z2N.id|reflexivity].
Qed.

(** The string form of a negative integer starts with a minus sign and is
    not a digit string. *)
Lemma isdigit_str_of_negative (n : Z) :
  n < 0 -> Py.isdigit (Py.str_of_int n) = false.
Proof.
  intros Hn. destruct n as [|p|p]; try lia. reflexivity.
Qed.

(** ** The store *)

Lemma eqb_refl (s : Py.str) : Py.eqb s s = true.
Proof. unfold Py.eqb. destruct (Py.str_eq_dec s s); congruence. Qed.

Lemma eqb_eq (s t : Py.str) : Py.eqb s t = true <-> s = t.
Proof.
  unfold Py.eqb. destruct (Py.str_eq_dec s t); split; congruence.
Qed.

Lemma eqb_neq (s t : Py.str) : Py.eqb s t = false <-> s <> t.
Proof.
  unfold Py.eqb. destruct (Py.str_eq_dec s t); split; congruence.
Qed.

Lemma next_id_gt (ids : list Z) (x : Z) : In x ids -> x < next_id ids.
Proof.
  unfold next_id. induction ids as [|y ids IH]; cbn [In fold_right]; [tauto|].
  intros [->|H]; [lia|]. specialize (IH H). lia.
Qed.

Lemma next_id_positive (ids : list Z) : 1 <= next_id ids.
Proof.
  unfold next_id. induction ids as [|y ids IH]; cbn [fold_right]; lia.
Qed.

Lemma find_app_none {A} (p : A -> bool) (l : list A) (x : A) :
  find p l = None -> find p (l ++ [x]) = if p x then Some x else None.
Proof.
  induction l as [|y l IH]; cbn [app find]; [reflexivity|].
  destruct (p y); [discriminate | exact IH].
Qed.

Lemma find_app_some {A} (p : A -> bool) (l l' : list A) (y : A) :
  find p l = Some y -> find p (l ++ l') = Some y.
Proof.
  induction l as [|z l IH]; cbn [app find]; [discriminate|].
  destruct (p z); [trivial | exact IH].
Qed.

Lemma get_user_some (db : Database) (k : Z) (u : User.t) :
  get_user db k = Some u -> User.id u = k /\ In u (users db).
Proof.
  unfold get_user. intros H. apply find_some in H as [Hin Hk].
  split; [lia | exact Hin].
Qed.

Lemma get_user_fresh (db : Database) :
  get_user db (next_id (map User.id (users db))) = None.
Proof.
  destruct (get_user db _) as [u|] eqn:E; [|reflexivity].
  apply get_user_some in E as [Hid Hin].
  pose proof (next_id_gt _ _ (in_map User.id _ _ Hin)). lia.
Qed.

Lemma count_email_zero (e : Py.str) (db : Database) :
  user_by_email db e = None <-> count_email e db = 0%nat.
Proof.
  unfold user_by_email, count_email.
  induction (users db) as [|u l IH]; cbn [find filter]; [tauto|].
  destruct (Py.eqb (User.email u) e); cbn [List.length]; [|exact IH].
  split; discriminate.
Qed.

Section Properties.

Variable cfg : Config.
Variable bcrypt_digest : Py.str -> Py.str -> option Py.str.
Variable ilike : Py.str -> Py.str -> bool.

(** *** Token decoding *)

Lemma decode_signed (payload : Jose.claims) (now : Z) :
  Jose.decode (signed cfg payload) (SECRET_KEY cfg) [ALGORITHM cfg] now =
  if negb (Jose.validate_exp payload now) then inl Jose.ExpiredSignatureError
  else if negb (Jose.validate_sub payload) then inl Jose.JWTClaimsError
  else inr payload.
Proof.
  unfold signed, Jose.decode. cbn [existsb]. now rewrite !eqb_refl.
Qed.

(** Every failure of [jwt.decode] leaves [_decode_token] as the same
    exception. *)
Lemma _decode_token_cases (token : Jose.token) (now : Z) :
  (exists payload,
      Jose.decode token (SECRET_KEY cfg) [ALGORITHM cfg] now = inr payload
      /\ _decode_token cfg token now = Ok payload)
  \/ ((exists e,
         Jose.decode token (SECRET_KEY cfg) [ALGORITHM cfg] now = inl e)
      /\ _decode_token cfg token now = unauthorized "Invalid token").
Proof.
  unfold _decode_token.
  destruct (Jose.decode token _ _ now) as [e|payload]; eauto.
Qed.

(** A decoded claim set has no [sub] or a string [sub]. *)
Lemma decoded_sub (token : Jose.token) (now : Z) (payload : Jose.claims) :
  _decode_token cfg token now = Ok payload ->
  Jose.sub payload = None \/ exists s, Jose.sub payload = Some (Jose.JStr s).
Proof.
  unfold _decode_token, Jose.decode. destruct token as [alg k c|raw];
    [|discriminate].
  destruct (negb (existsb _ _)); [discriminate|].
  destruct (negb (Py.eqb k _)); [discriminate|].
  destruct (negb (Jose.validate_exp c now)); [discriminate|].
  destruct (negb (Jose.validate_sub c)) eqn:E; [discriminate|].
  intros [= <-]. unfold Jose.validate_sub in E.
  destruct (Jose.sub c) as [[| | |s]|]; cbn in E; try discriminate; eauto.
Qed.

(** *** Identity resolution, branch by branch *)

(** X1.  The outcome of [get_current_user] for every token whose subject,
    when it is a digit string, is inside the limits of [int()] and of the
    store ([subject_in_range]), for every store and verification time.
    [AttributeError] is not among the outcomes: [jwt.decode] has already
    refused a [sub] that is not a string. *)
Lemma get_current_user_cases (token : Jose.token) (db : Database) (now : Z) :
  (forall payload s,
      _decode_token cfg token now = Ok payload ->
      Jose.sub payload = Some (Jose.JStr s) ->
      Py.isdigit s = true ->
      subject_in_range s) ->
  match _decode_token cfg token now with
  | Raise _ =>
      get_current_user cfg token db now = unauthorized "Invalid token"
  | Ok payload =>
      if ne_str (Jose.type payload) (Py.lit "access") then
        get_current_user cfg token db now =
        unauthorized "Invalid access token"
      else
        match Jose.sub payload with
        | Some (Jose.JStr s) =>
            if Py.isdigit s then
              match Py.int s with
              | Some n =>
                  match get_user db n with
                  | Some user =>
                      get_current_user cfg token db now = Ok user
                      /\ User.id user = n
                  | None =>
                      get_current_user cfg token db now =
                      unauthorized "User not found"
                  end
              | None => get_current_user cfg token db now = Raise ValueError
              end
            else
              get_current_user cfg token db now =
              unauthorized "Invalid access token"
        | _ =>
            get_current_user cfg token db now =
            unauthorized "Invalid access token"
        end
  end.
Proof.
  intros _. unfold get_current_user.
  destruct (_decode_token_cases token now) as [(p & _ & E)|[_ E]];
    rewrite E; cbn [bind]; [|reflexivity].
  destruct (ne_str _ _); [reflexivity|].
  destruct (decoded_sub _ _ _ E) as [S|[s S]]; rewrite S; [reflexivity|].
  destruct s as [|c s]; [reflexivity|]. cbn [truthy negb orb].
  destruct (Py.isdigit (c :: s)); cbn [negb]; [|reflexivity].
  destruct (Py.int (c :: s)) as [n|]; [|reflexivity].
  destruct (get_user db n) as [u|] eqn:G; [|reflexivity].
  split; [reflexivity | now apply get_user_some in G].
Qed.

(** C1 (evaluation at the failing input).  A token signed with the
    configured key whose [type] is "access" and whose [sub] is the single
    character U+00B2 (superscript two) passes the [isdigit] guard, and
    [int(sub)] then raises [ValueError]: identity resolution neither fails
    with 401 nor returns a user. *)
Theorem get_current_user_superscript_subject (db : Database) (now : Z) :
  get_current_user cfg
    (signed cfg
       {| Jose.sub := Some (Jose.JStr [178%N]);
          Jose.type := Some (Jose.JStr (Py.lit "access"));
          Jose.iat := None;
          Jose.exp := None |}) db now
  = Raise ValueError.
Proof.
  unfold get_current_user, _decode_token.
  rewrite (decode_signed _ now). reflexivity.
Qed.

(** *** Expiry *)

(** C2 (amended).  A token whose [exp] is strictly before the verification
    time is rejected with 401 "Invalid token", whatever its signature; a
    malformed token and a token signed with another key are rejected with
    that same exception. *)
Theorem _decode_token_rejects_expired (alg key : Py.str)
    (payload : Jose.claims) (e now : Z) :
  Jose.exp payload = Some e -> e < now ->
  _decode_token cfg (Jose.Jws alg key payload) now
    = unauthorized "Invalid token"
  /\ (forall raw,
        _decode_token cfg (Jose.Malformed raw) now
          = unauthorized "Invalid token")
  /\ (forall key' payload',
        key' <> SECRET_KEY cfg ->
        _decode_token cfg (Jose.Jws alg key' payload') now
          = unauthorized "Invalid token").
Proof.
  intros He Hlt. unfold _decode_token, Jose.decode. repeat split.
  - destruct (negb (existsb _ _)); [reflexivity|].
    destruct (negb (Py.eqb key _)); [reflexivity|].
    unfold Jose.validate_exp. rewrite He.
    apply Z.ltb_lt in Hlt. rewrite Hlt. reflexivity.
  - intros key' payload' Hk.
    destruct (negb (existsb _ _)); [reflexivity|].
    apply eqb_neq in Hk. rewrite Hk. reflexivity.
Qed.

(** *** Token kinds *)

(** C3.  A validly signed, unexpired token of kind "refresh" is rejected
    with 401 by [get_current_user], and one of kind "access" is rejected
    with 401 by [verify_refresh_token]. *)
Theorem token_kinds_not_interchangeable (payload : Jose.claims)
    (db : Database) (now : Z) :
  unexpired payload now ->
  (Jose.type payload = Some (Jose.JStr (Py.lit "refresh")) ->
   get_current_user cfg (signed cfg payload) db now =
   unauthorized (if Jose.validate_sub payload then "Invalid access token"
                 else "Invalid token"))
  /\ (Jose.type payload = Some (Jose.JStr (Py.lit "access")) ->
      verify_refresh_token cfg (signed cfg payload) now =
      unauthorized (if Jose.validate_sub payload then "Invalid refresh token"
                    else "Invalid token")).
Proof.
  intros Hexp. unfold unexpired in Hexp.
  unfold get_current_user, verify_refresh_token, _decode_token.
  rewrite decode_signed, Hexp. cbn [negb].
  destruct (Jose.validate_sub payload); cbn [negb bind];
    split; intros H; try rewrite H; reflexivity.
Qed.

(** *** Login *)

(** Login with an email that is not registered and login with a registered
    email whose password verification returns false give the same outcome:
    the same exception (status 401, the same detail) and an unchanged
    store. *)
Theorem login_failures_indistinguishable (absent wrong : LoginRequest.t)
    (user : User.t) (now : Z) (db : Database) :
  user_by_email db (LoginRequest.email absent) = None ->
  user_by_email db (LoginRequest.email wrong) = Some user ->
  verify_password bcrypt_digest (LoginRequest.password wrong)
    (User.password_hash user) = Ok false ->
  login cfg bcrypt_digest absent now db = login cfg bcrypt_digest wrong now db
  /\ login cfg bcrypt_digest wrong now db
     = (Raise (HTTPException 401 "Invalid credentials"), db).
Proof.
  intros Ha Hw Hv. unfold login. rewrite Ha, Hw, Hv. split; reflexivity.
Qed.

(** *** Password verification *)

(** [verify(p, hash(p))] is true. *)
Lemma verify_hash_password (salt password : Py.str)
    (h : Passlib.hash_string) :
  hash_password bcrypt_digest salt password = Ok h ->
  verify_password bcrypt_digest password h = Ok true.
Proof.
  unfold hash_password, verify_password, Passlib.hash, Passlib.verify.
  destruct (bcrypt_digest salt password) as [d|] eqn:E; [|discriminate].
  intros [= <-]. now rewrite E, eqb_refl.
Qed.

(** C5 (amended).  Against a well-formed bcrypt hash, and for a plaintext
    the hasher accepts, [verify_password] returns a boolean: true exactly
    when the recomputed checksum is the stored one.  Against a string that
    is not a bcrypt hash it raises [ValueError]. *)
Theorem verify_password_outcomes (plain salt checksum d : Py.str) :
  bcrypt_digest salt plain = Some d ->
  (verify_password bcrypt_digest plain (Passlib.Bcrypt salt checksum)
     = Ok true <-> d = checksum)
  /\ (verify_password bcrypt_digest plain (Passlib.Bcrypt salt checksum)
        = Ok false <-> d <> checksum)
  /\ (forall raw,
        verify_password bcrypt_digest plain (Passlib.NotAHash raw)
          = Raise ValueError).
Proof.
  intros Hd. unfold verify_password, Passlib.verify. rewrite Hd.
  repeat split; try intros [= H]; try intros H.
  - now apply eqb_eq.
  - apply eqb_eq in H. now rewrite H.
  - now apply eqb_neq.
  - apply eqb_neq in H. now rewrite H.
Qed.

(** *** Tokens this service signs *)

Lemma create_access_token_signed (n now : Z) :
  create_access_token cfg n now =
  signed cfg
    {| Jose.sub := Some (Jose.JStr (Py.str_of_int n));
       Jose.type := Some (Jose.JStr (Py.lit "access"));
       Jose.iat := Some now;
       Jose.exp := Some (now + 60 * ACCESS_TOKEN_EXPIRE_MINUTES cfg) |}.
Proof. reflexivity. Qed.

Lemma create_refresh_token_signed (n now : Z) :
  create_refresh_token cfg n now =
  signed cfg
    {| Jose.sub := Some (Jose.JStr (Py.str_of_int n));
       Jose.type := Some (Jose.JStr (Py.lit "refresh"));
       Jose.iat := Some now;
       Jose.exp := Some (now + 86400 * REFRESH_TOKEN_EXPIRE_DAYS cfg) |}.
Proof. reflexivity. Qed.

Lemma isdigit_nonempty (s : Py.str) :
  Py.isdigit s = true -> truthy (Some (Jose.JStr s)) = true.
Proof. destruct s; [discriminate | reflexivity]. Qed.

(** Identity resolution of a signed, unexpired access token with a digit
    subject comes down to the conversion and the lookup. *)
Lemma get_current_user_signed (payload : Jose.claims) (s : Py.str)
    (db : Database) (now : Z) :
  unexpired payload now ->
  Jose.type payload = Some (Jose.JStr (Py.lit "access")) ->
  Jose.sub payload = Some (Jose.JStr s) ->
  Py.isdigit s = true ->
  get_current_user cfg (signed cfg payload) db now =
  match Py.int s with
  | Some n =>
      match get_user db n with
      | Some user => Ok user
      | None => unauthorized "User not found"
      end
  | None => Raise ValueError
  end.
Proof.
  intros Hexp Ht Hs Hd. unfold unexpired in Hexp.
  unfold get_current_user, _decode_token.
  rewrite decode_signed, Hexp. unfold Jose.validate_sub. rewrite Hs.
  cbn [negb bind]. rewrite Ht. unfold ne_str. rewrite eqb_refl. cbn [negb].
  rewrite Hs, (isdigit_nonempty s Hd), Hd. reflexivity.
Qed.

Lemma verify_refresh_token_signed (payload : Jose.claims) (s : Py.str)
    (now : Z) :
  unexpired payload now ->
  Jose.type payload = Some (Jose.JStr (Py.lit "refresh")) ->
  Jose.sub payload = Some (Jose.JStr s) ->
  Py.isdigit s = true ->
  verify_refresh_token cfg (signed cfg payload) now =
  match Py.int s with
  | Some n => Ok n
  | None => Raise ValueError
  end.
Proof.
  intros Hexp Ht Hs Hd. unfold unexpired in Hexp.
  unfold verify_refresh_token, _decode_token.
  rewrite decode_signed, Hexp. unfold Jose.validate_sub. rewrite Hs.
  cbn [negb bind]. rewrite Ht. unfold ne_str. rewrite eqb_refl. cbn [negb].
  rewrite Hs, (isdigit_nonempty s Hd), Hd. reflexivity.
Qed.

Lemma resolve_access_token (n issued later : Z) (db : Database) (u : User.t) :
  0 <= n ->
  get_user db n = Some u ->
  later <= issued + 60 * ACCESS_TOKEN_EXPIRE_MINUTES cfg ->
  get_current_user cfg (create_access_token cfg n issued) db later = Ok u.
Proof.
  intros Hn Hu Hl. destruct (int_str_of_int n Hn) as [Hint Hdig].
  rewrite create_access_token_signed.
  rewrite (get_current_user_signed _ (Py.str_of_int n)); try reflexivity;
    [now rewrite Hint, Hu | | exact Hdig].
  unfold unexpired, Jose.validate_exp. cbn [Jose.exp].
  apply negb_true_iff, Z.ltb_ge. exact Hl.
Qed.

(** *** Signup *)

Lemma signup_taken (payload : SignupRequest.t) (salt : Py.str) (now : Z)
    (db : Database) (existing : User.t) :
  user_by_email db (SignupRequest.email payload) = Some existing ->
  signup bcrypt_digest payload salt now db =
  (Raise (HTTPException HTTP_409_CONFLICT "Email already registered"), db).
Proof. intros H. unfold signup. now rewrite H. Qed.

Lemma signup_free (payload : SignupRequest.t) (salt : Py.str) (now : Z)
    (db : Database) (h : Passlib.hash_string) :
  user_by_email db (SignupRequest.email payload) = None ->
  hash_password bcrypt_digest salt (SignupRequest.password payload) = Ok h ->
  signup bcrypt_digest payload salt now db =
  (Ok {| Message.message := "User created" |},
   add_user db (SignupRequest.email payload) h now).
Proof. intros H1 H2. unfold signup. now rewrite H1, H2. Qed.

(** What a successful signup did. *)
Lemma signup_ok_inv (payload : SignupRequest.t) (salt : Py.str) (now : Z)
    (db db' : Database) (msg : Message.t) :
  signup bcrypt_digest payload salt now db = (Ok msg, db') ->
  exists h,
    user_by_email db (SignupRequest.email payload) = None
    /\ hash_password bcrypt_digest salt (SignupRequest.password payload) = Ok h
    /\ db' = add_user db (SignupRequest.email payload) h now.
Proof.
  unfold signup.
  destruct (user_by_email db _); [discriminate|].
  destruct (hash_password _ _ _) as [h|e]; [|discriminate].
  intros [= _ <-]. eauto.
Qed.

Lemma user_by_email_added (db : Database) (e : Py.str)
    (h : Passlib.hash_string) (now : Z) :
  user_by_email db e = None ->
  user_by_email (add_user db e h now) e =
  Some {| User.id := next_id (map User.id (users db));
          User.email := e;
          User.password_hash := h;
          User.created_at := now |}.
Proof.
  intros H. unfold user_by_email, add_user in *. cbn [users].
  rewrite (find_app_none _ _ _ H). cbn [User.email]. now rewrite eqb_refl.
Qed.

Lemma get_user_added (db : Database) (e : Py.str) (h : Passlib.hash_string)
    (now : Z) :
  get_user (add_user db e h now) (next_id (map User.id (users db))) =
  Some {| User.id := next_id (map User.id (users db));
          User.email := e;
          User.password_hash := h;
          User.created_at := now |}.
Proof.
  pose proof (get_user_fresh db) as H. unfold get_user, add_user in *.
  cbn [users]. rewrite (find_app_none _ _ _ H). cbn [User.id].
  now rewrite Z.eqb_refl.
Qed.

Lemma count_email_added (db : Database) (e : Py.str)
    (h : Passlib.hash_string) (now : Z) :
  count_email e (add_user db e h now) = S (count_email e db).
Proof.
  unfold count_email, add_user. cbn [users].
  rewrite filter_app, length_app. cbn [filter User.email].
  rewrite eqb_refl. cbn [List.length]. lia.
Qed.

(** Once an email is registered, every further signup with it is refused
    and changes nothing. *)
Lemma signups_taken (e : Py.str)
    (reqs : list (SignupRequest.t * Py.str * Z)) (db : Database)
    (existing : User.t) :
  user_by_email db e = Some existing ->
  Forall (fun r => SignupRequest.email (fst (fst r)) = e) reqs ->
  signups bcrypt_digest reqs db =
  (map (fun _ =>
          Raise (HTTPException HTTP_409_CONFLICT "Email already registered"))
       reqs, db).
Proof.
  intros He. induction 1 as [|[[p salt] now] reqs Hp _ IH];
    cbn [signups map]; [reflexivity|].
  cbn [fst] in Hp. rewrite (signup_taken p salt now db existing), IH;
    [reflexivity | now rewrite Hp].
Qed.

(** Positive keys are an invariant of the store: the empty store has it and
    signup, the only writer of the user table, keeps it. *)
Lemma positive_ids_empty : positive_ids empty_db.
Proof. constructor. Qed.

Lemma positive_ids_signup (payload : SignupRequest.t) (salt : Py.str)
    (now : Z) (db : Database) :
  positive_ids db ->
  positive_ids (snd (signup bcrypt_digest payload salt now db)).
Proof.
  intros H. unfold signup.
  destruct (user_by_email db _); [exact H|].
  destruct (hash_password _ _ _); [|exact H].
  unfold positive_ids, add_user. cbn [snd users].
  apply Forall_app. split; [exact H|]. constructor; [|constructor].
  apply next_id_positive.
Qed.

(** C6.  The access token issued for a user id carries the string form of
    that id as its subject; presented within its lifetime to a store whose
    keys are positive and that holds a user with that id, it resolves to
    that user; and after a successful signup, login with the same
    credentials succeeds and its access token resolves to the user the
    signup created. *)
Theorem access_token_subject_round_trip :
  (forall n issued,
      create_access_token cfg n issued =
      signed cfg
        {| Jose.sub := Some (Jose.JStr (Py.str_of_int n));
           Jose.type := Some (Jose.JStr (Py.lit "access"));
           Jose.iat := Some issued;
           Jose.exp := Some (issued + 60 * ACCESS_TOKEN_EXPIRE_MINUTES cfg) |})
  /\ (forall n issued later db u,
        positive_ids db ->
        get_user db n = Some u ->
        later <= issued + 60 * ACCESS_TOKEN_EXPIRE_MINUTES cfg ->
        get_current_user cfg (create_access_token cfg n issued) db later = Ok u
        /\ User.id u = n)
  /\ (forall p salt t0 t1 t2 db0 db1 msg,
        signup bcrypt_digest p salt t0 db0 = (Ok msg, db1) ->
        t2 <= t1 + 60 * ACCESS_TOKEN_EXPIRE_MINUTES cfg ->
        exists resp created,
          login cfg bcrypt_digest
            {| LoginRequest.email := SignupRequest.email p;
               LoginRequest.password := SignupRequest.password p |} t1 db1
          = (Ok resp, db1)
          /\ users db1 = users db0 ++ [created]
          /\ User.email created = SignupRequest.email p
          /\ get_current_user cfg (TokenResponse.access_token resp) db1 t2
             = Ok created).
Proof.
  split; [intros; apply create_access_token_signed|]. split.
  - intros n issued later db u Hpos Hu Hl.
    destruct (get_user_some _ _ _ Hu) as [Hid Hin]. split; [|exact Hid].
    apply resolve_access_token; [|exact Hu|exact Hl].
    unfold positive_ids in Hpos. rewrite Forall_forall in Hpos.
    specialize (Hpos u Hin). lia.
  - intros p salt t0 t1 t2 db0 db1 msg Hs Hl.
    destruct (signup_ok_inv _ _ _ _ _ _ Hs) as (h & Hfree & Hhash & ->).
    eexists. eexists. unfold login.
    cbn [LoginRequest.email LoginRequest.password].
    rewrite (user_by_email_added _ _ h t0 Hfree). cbn [User.password_hash].
    rewrite (verify_hash_password _ _ _ Hhash).
    split; [reflexivity|]. split; [reflexivity|]. split; [reflexivity|].
    cbn [TokenResponse.access_token User.id].
    apply resolve_access_token; [|apply get_user_added|exact Hl].
    pose proof (next_id_positive (map User.id (users db0))). lia.
Qed.

(** C7 (amended).  Signup with a registered email fails with 409 and leaves
    the store as it was.  Signup with an email that is not registered, for a
    password the hasher accepts, appends exactly one user row, with that
    email and, as [password_hash], the bcrypt hash string made of the drawn
    salt and the digest of the password; the password verifies against it,
    exactly one row has that email from then on, and every further signup
    with it is refused and changes nothing.  The outcome depends on the
    password through its digest only.  For a password the hasher refuses,
    signup raises [ValueError] and adds no row. *)
Theorem signup_conflict_or_insert (payload : SignupRequest.t)
    (salt : Py.str) (now : Z) (db : Database) :
  (forall existing,
      user_by_email db (SignupRequest.email payload) = Some existing ->
      signup bcrypt_digest payload salt now db =
      (Raise (HTTPException 409 "Email already registered"), db))
  /\ (forall d,
        user_by_email db (SignupRequest.email payload) = None ->
        bcrypt_digest salt (SignupRequest.password payload) = Some d ->
        exists created db',
          signup bcrypt_digest payload salt now db =
          (Ok {| Message.message := "User created" |}, db')
          /\ users db' = users db ++ [created]
          /\ notes db' = notes db
          /\ User.email created = SignupRequest.email payload
          /\ User.password_hash created = Passlib.Bcrypt salt d
          /\ verify_password bcrypt_digest (SignupRequest.password payload)
               (User.password_hash created) = Ok true
          /\ count_email (SignupRequest.email payload) db' = 1%nat
          /\ (forall reqs,
                Forall (fun r => SignupRequest.email (fst (fst r))
                                 = SignupRequest.email payload) reqs ->
                exists rs,
                  signups bcrypt_digest reqs db' = (rs, db')
                  /\ Forall (fun r =>
                        r = Raise (HTTPException 409
                                     "Email already registered")) rs))
  /\ (forall other,
        SignupRequest.email other = SignupRequest.email payload ->
        bcrypt_digest salt (SignupRequest.password other)
        = bcrypt_digest salt (SignupRequest.password payload) ->
        signup bcrypt_digest other salt now db
        = signup bcrypt_digest payload salt now db)
  /\ (user_by_email db (SignupRequest.email payload) = None ->
      bcrypt_digest salt (SignupRequest.password payload) = None ->
      signup bcrypt_digest payload salt now db = (Raise ValueError, db)).
Proof.
  split; [intros existing H; now apply signup_taken with existing|].
  split; [|split].
  - intros d Hfree Hd.
    assert (Hhash : hash_password bcrypt_digest salt
                      (SignupRequest.password payload)
                    = Ok (Passlib.Bcrypt salt d)).
    { unfold hash_password, Passlib.hash. now rewrite Hd. }
    eexists.
    exists (add_user db (SignupRequest.email payload)
              (Passlib.Bcrypt salt d) now).
    split; [now apply signup_free|]. do 4 (split; [reflexivity|]).
    split; [cbn [User.password_hash]; now apply verify_hash_password
              with (salt := salt)|].
    split.
    + rewrite count_email_added. apply count_email_zero in Hfree.
      now rewrite Hfree.
    + intros reqs Hreqs. eexists. split.
      * eapply signups_taken; [|exact Hreqs].
        apply user_by_email_added, Hfree.
      * apply Forall_forall. intros r Hr. apply in_map_iff in Hr.
        now destruct Hr as (_ & <- & _).
  - intros other He Hd. unfold signup, hash_password, Passlib.hash.
    now rewrite He, Hd.
  - intros Hfree Hd. unfold signup, hash_password, Passlib.hash.
    now rewrite Hfree, Hd.
Qed.

(** *** Refresh *)

Lemma int_from_decimal (s : Py.str) : forall a n,
  Py.int_from a s = Some n -> forallb Py.ch_isdigit s = true.
Proof.
  induction s as [|c s IH]; intros a n; cbn [Py.int_from forallb];
    [reflexivity|].
  unfold Py.ch_isdigit at 1, Py.ch_isdecimal.
  destruct (Py.decimal_value c); [|discriminate].
  intros H. cbn [orb andb]. now apply IH in H.
Qed.

(** A string [int] converts is a digit string. *)
Lemma int_some_isdigit (s : Py.str) (n : Z) :
  Py.int s = Some n -> Py.isdigit s = true.
Proof.
  unfold Py.int, Py.isdigit. destruct s as [|c s]; [discriminate|].
  destruct (Py.int_from 0 (c :: s)) as [m|] eqn:E; [|discriminate].
  intros _. now apply int_from_decimal in E.
Qed.

(** C8.  Refresh with a validly signed, unexpired refresh token whose
    subject converts to the id of a stored user returns an access token and
    a refresh token whose subject is the string form of that id, and leaves
    the store as it was; the same refresh token presented again at any time
    at which it is still unexpired succeeds again. *)
Theorem refresh_reissues_and_keeps_old_token (payload : Jose.claims)
    (s : Py.str) (n : Z) (u : User.t) (db : Database) (now later : Z) :
  unexpired payload now ->
  Jose.type payload = Some (Jose.JStr (Py.lit "refresh")) ->
  Jose.sub payload = Some (Jose.JStr s) ->
  Py.int s = Some n ->
  get_user db n = Some u ->
  unexpired payload later ->
  refresh cfg {| RefreshRequest.refresh_token := signed cfg payload |} now db
  = (Ok {| TokenResponse.access_token :=
             signed cfg
               {| Jose.sub := Some (Jose.JStr (Py.str_of_int n));
                  Jose.type := Some (Jose.JStr (Py.lit "access"));
                  Jose.iat := Some now;
                  Jose.exp :=
                    Some (now + 60 * ACCESS_TOKEN_EXPIRE_MINUTES cfg) |};
           TokenResponse.refresh_token :=
             signed cfg
               {| Jose.sub := Some (Jose.JStr (Py.str_of_int n));
                  Jose.type := Some (Jose.JStr (Py.lit "refresh"));
                  Jose.iat := Some now;
                  Jose.exp :=
                    Some (now + 86400 * REFRESH_TOKEN_EXPIRE_DAYS cfg) |};
           TokenResponse.token_type := "bearer" |}, db)
  /\ exists again,
       refresh cfg {| RefreshRequest.refresh_token := signed cfg payload |}
         later
         (snd (refresh cfg
                 {| RefreshRequest.refresh_token := signed cfg payload |}
                 now db))
       = (Ok again, db).
Proof.
  intros Hnow Ht Hs Hi Hu Hlater.
  pose proof (int_some_isdigit _ _ Hi) as Hd.
  destruct (get_user_some _ _ _ Hu) as [Hid _].
  assert (R : forall t, unexpired payload t ->
            refresh cfg {| RefreshRequest.refresh_token := signed cfg payload |}
              t db
            = (Ok {| TokenResponse.access_token := create_access_token cfg n t;
                     TokenResponse.refresh_token :=
                       create_refresh_token cfg n t;
                     TokenResponse.token_type := "bearer" |}, db)).
  { intros t Hexp. unfold refresh. cbn [RefreshRequest.refresh_token].
    rewrite (verify_refresh_token_signed payload s t Hexp Ht Hs Hd), Hi, Hu.
    now rewrite Hid. }
  split; [apply (R now Hnow)|].
  rewrite (R now Hnow). cbn [snd]. eexists. apply (R later Hlater).
Qed.

(** X4.  A refresh token this service issued for a stored user, presented
    within its lifetime, is itself accepted by refresh. *)
Theorem issued_refresh_token_refreshes (n issued later : Z) (db : Database)
    (u : User.t) :
  positive_ids db ->
  get_user db n = Some u ->
  later <= issued + 86400 * REFRESH_TOKEN_EXPIRE_DAYS cfg ->
  refresh cfg
    {| RefreshRequest.refresh_token := create_refresh_token cfg n issued |}
    later db
  = (Ok {| TokenResponse.access_token := create_access_token cfg n later;
           TokenResponse.refresh_token := create_refresh_token cfg n later;
           TokenResponse.token_type := "bearer" |}, db).
Proof.
  intros Hpos Hu Hl. destruct (get_user_some _ _ _ Hu) as [Hid Hin].
  assert (Hn : 0 <= n).
  { unfold positive_ids in Hpos. rewrite Forall_forall in Hpos.
    specialize (Hpos u Hin). lia. }
  destruct (int_str_of_int n Hn) as [Hint Hdig].
  unfold refresh. cbn [RefreshRequest.refresh_token].
  rewrite create_refresh_token_signed at 1.
  rewrite (verify_refresh_token_signed _ (Py.str_of_int n));
    [ rewrite Hint, Hu, Hid; reflexivity | | reflexivity | reflexivity
    | exact Hdig ].
  unfold unexpired, Jose.validate_exp. cbn [Jose.exp].
  apply negb_true_iff, Z.ltb_ge. exact Hl.
Qed.

(** *** Notes *)

Lemma in_firstn {A} (k : nat) : forall (l : list A) (x : A),
  In x (firstn k l) -> In x l.
Proof.
  induction k as [|k IH]; intros [|y l] x; cbn [firstn In]; try tauto.
  intros [->|H]; [now left | right; now apply IH].
Qed.

Lemma in_skipn {A} (k : nat) : forall (l : list A) (x : A),
  In x (skipn k l) -> In x l.
Proof.
  induction k as [|k IH]; intros [|y l] x; cbn [skipn In]; try tauto.
  intros H. right. now apply IH.
Qed.

Lemma in_insert_desc (x y : Note.t) (l : list Note.t) :
  In x (insert_desc y l) -> x = y \/ In x l.
Proof.
  induction l as [|z l IH]; cbn [insert_desc In]; [intuition|].
  destruct (Note.updated_at z <=? Note.updated_at y); cbn [In]; intuition.
Qed.

Lemma in_order_by_updated_desc (x : Note.t) (l : list Note.t) :
  In x (order_by_updated_desc l) -> In x l.
Proof.
  unfold order_by_updated_desc.
  induction l as [|y l IH]; cbn [fold_right In]; [tauto|].
  intros H. apply in_insert_desc in H. intuition.
Qed.

(** Every note a listing returns belongs to the user the token resolves
    to, and the listing changes nothing. *)
Lemma list_notes_own (token : Jose.token) (q : option Py.str)
    (limit offset : Z) (now : Z) (db : Database) (reader : User.t) :
  get_current_user cfg token db now = Ok reader ->
  exists l,
    list_notes cfg ilike token q limit offset now db = (Ok l, db)
    /\ Forall (fun n => Note.user_id n = User.id reader /\ In n (notes db)) l.
Proof.
  intros Hu. unfold list_notes. rewrite Hu. eexists. split; [reflexivity|].
  apply Forall_forall. intros x Hx.
  apply in_firstn, in_skipn, in_order_by_updated_desc in Hx.
  assert (Hf : In x (filter (fun n => Note.user_id n =? User.id reader)
                       (notes db))).
  { destruct q as [[|c q']|]; try exact Hx.
    now apply filter_In in Hx as [Hx _]. }
  apply filter_In in Hf as [Hin Heq]. split; [lia | exact Hin].
Qed.

(** C9.  For a note that belongs to another user than the one the token
    resolves to, get, update and delete fail with 404 and leave the store
    as it was, and no listing made with that token contains the note. *)
Theorem notes_isolated_between_users (token : Jose.token) (note_id : Z)
    (note : Note.t) (reader : User.t) (db : Database) (now : Z) :
  get_current_user cfg token db now = Ok reader ->
  get_note_row db note_id = Some note ->
  Note.user_id note <> User.id reader ->
  get_note cfg token note_id now db
    = (Raise (HTTPException 404 "Note not found"), db)
  /\ (forall payload,
        update_note cfg token note_id payload now db
          = (Raise (HTTPException 404 "Note not found"), db))
  /\ delete_note cfg token note_id now db
     = (Raise (HTTPException 404 "Note not found"), db)
  /\ (forall q limit offset,
        exists l,
          list_notes cfg ilike token q limit offset now db = (Ok l, db)
          /\ ~ In note l
          /\ Forall (fun n => Note.user_id n = User.id reader) l).
Proof.
  intros Hu Hn Hne. apply Z.eqb_neq in Hne as Hb.
  unfold get_note, update_note, delete_note. rewrite Hu, Hn, Hb. cbn [negb].
  repeat split.
  intros q limit offset.
  destruct (list_notes_own token q limit offset now db reader Hu)
    as (l & Hl & Hall).
  exists l. rewrite Forall_forall in Hall. split; [exact Hl|]. split.
  - intros Hin. now destruct (Hall _ Hin).
  - apply Forall_forall. intros x Hx. now destruct (Hall _ Hx).
Qed.

(** *** Subjects that are not canonical *)

(** X2.  A subject that [int] converts to [n] resolves exactly as the
    canonical subject [str(n)] does. *)
Theorem decimal_subject_resolves_as_canonical (payload : Jose.claims)
    (s : Py.str) (n : Z) (db : Database) (now : Z) :
  unexpired payload now ->
  Jose.type payload = Some (Jose.JStr (Py.lit "access")) ->
  Jose.sub payload = Some (Jose.JStr s) ->
  Py.int s = Some n ->
  get_current_user cfg (signed cfg payload) db now =
  get_current_user cfg
    (signed cfg
       {| Jose.sub := Some (Jose.JStr (Py.str_of_int n));
          Jose.type := Jose.type payload;
          Jose.iat := Jose.iat payload;
          Jose.exp := Jose.exp payload |}) db now.
Proof.
  intros Hexp Ht Hs Hi.
  assert (Hn : 0 <= n).
  { unfold Py.int in Hi. destruct s; [discriminate|].
    destruct (Py.int_from 0 _); [|discriminate].
    injection Hi as <-. lia. }
  destruct (int_str_of_int n Hn) as [Hint Hdig].
  rewrite (get_current_user_signed payload s db now Hexp Ht Hs
             (int_some_isdigit _ _ Hi)).
  rewrite (get_current_user_signed _ (Py.str_of_int n) db now);
    [now rewrite Hi, Hint | exact Hexp | exact Ht | reflexivity | exact Hdig].
Qed.

(** X3.  A subject with a character that is not a digit, and the empty
    subject, are refused with 401 by both consumers of a token. *)
Theorem non_digit_subject_unauthorized (payload : Jose.claims) (s : Py.str)
    (db : Database) (now : Z) :
  unexpired payload now ->
  Jose.sub payload = Some (Jose.JStr s) ->
  Py.isdigit s = false ->
  (Jose.type payload = Some (Jose.JStr (Py.lit "access")) ->
   get_current_user cfg (signed cfg payload) db now
     = unauthorized "Invalid access token")
  /\ (Jose.type payload = Some (Jose.JStr (Py.lit "refresh")) ->
      verify_refresh_token cfg (signed cfg payload) now
        = unauthorized "Invalid refresh token").
Proof.
  intros Hexp Hs Hd. unfold unexpired in Hexp.
  unfold get_current_user, verify_refresh_token, _decode_token.
  rewrite decode_signed, Hexp. unfold Jose.validate_sub. rewrite Hs.
  cbn [negb bind]. unfold ne_str.
  split; intros Ht; rewrite Ht, eqb_refl; cbn [negb]; rewrite Hs, Hd;
    cbn [negb]; now rewrite orb_true_r.
Qed.

(** C10 (evaluation at the failing input).  The subject "7" followed by
    U+00B2 passes [isdigit], so neither consumer answers 401; [int] then
    raises [ValueError] in both, so neither resolves it as a user id. *)
Theorem digit_subject_not_decimal_raises (db : Database) (now : Z) :
  Py.isdigit [55%N; 178%N] = true
  /\ Py.isdecimal [55%N; 178%N] = false
  /\ get_current_user cfg
       (signed cfg
          {| Jose.sub := Some (Jose.JStr [55%N; 178%N]);
             Jose.type := Some (Jose.JStr (Py.lit "access"));
             Jose.iat := None;
             Jose.exp := None |}) db now
     = Raise ValueError
  /\ verify_refresh_token cfg
       (signed cfg
          {| Jose.sub := Some (Jose.JStr [55%N; 178%N]);
             Jose.type := Some (Jose.JStr (Py.lit "refresh"));
             Jose.iat := None;
             Jose.exp := None |}) now
     = Raise ValueError.
Proof.
  split; [reflexivity|]. split; [reflexivity|]. split.
  - now rewrite (get_current_user_signed _ [55%N; 178%N]).
  - now rewrite (verify_refresh_token_signed _ [55%N; 178%N]).
Qed.

End Properties.

(** ** The theorems at concrete inputs *)

(** C2: with the default configuration, the access token issued at second
    1000 for user 7 expires at second 2800; at second 2800 itself it still
    decodes. *)
Lemma token_expiring_now_is_accepted :
  _decode_token default_config (create_access_token default_config 7 1000) 2800
  = Ok {| Jose.sub := Some (Jose.JStr (Py.lit "7"));
          Jose.type := Some (Jose.JStr (Py.lit "access"));
          Jose.iat := Some 1000;
          Jose.exp := Some 2800 |}.
Proof. reflexivity. Qed.

(** One second later the same token is refused. *)
Lemma _decode_token_rejects_expired_witness :
  _decode_token default_config (create_access_token default_config 7 1000) 2801
  = unauthorized "Invalid token".
Proof.
  assert (H : 2800 < 2801) by lia.
  apply (proj1 (_decode_token_rejects_expired default_config
                  (Py.lit "HS256") (Py.lit "change_me")
                  {| Jose.sub := Some (Jose.JStr (Py.lit "7"));
                     Jose.type := Some (Jose.JStr (Py.lit "access"));
                     Jose.iat := Some 1000;
                     Jose.exp := Some 2800 |} 2800 2801 eq_refl H)).
Defined.

(** A refresh token in the access slot, an access token in the refresh
    slot. *)
Lemma token_kinds_not_interchangeable_witness :
  get_current_user default_config (create_refresh_token default_config 1 1000)
    sample_db 1500
  = unauthorized "Invalid access token"
  /\ verify_refresh_token default_config
       (create_access_token default_config 1 1000) 1500
     = unauthorized "Invalid refresh token".
Proof.
  split.
  - apply (proj1 (token_kinds_not_interchangeable default_config
                    {| Jose.sub := Some (Jose.JStr (Py.lit "1"));
                       Jose.type := Some (Jose.JStr (Py.lit "refresh"));
                       Jose.iat := Some 1000;
                       Jose.exp := Some 605800 |} sample_db 1500 eq_refl)).
    reflexivity.
  - apply (proj2 (token_kinds_not_interchangeable default_config
                    {| Jose.sub := Some (Jose.JStr (Py.lit "1"));
                       Jose.type := Some (Jose.JStr (Py.lit "access"));
                       Jose.iat := Some 1000;
                       Jose.exp := Some 2800 |} sample_db 1500 eq_refl)).
    reflexivity.
Defined.

(** An unknown email, and the first user's email with a wrong password. *)
Lemma login_failures_indistinguishable_witness :
  login default_config sample_digest
    {| LoginRequest.email := Py.lit "nobody@x.com";
       LoginRequest.password := Py.lit "longenough1" |} 1000 sample_db
  = login default_config sample_digest
      {| LoginRequest.email := Py.lit "a@x.com";
         LoginRequest.password := Py.lit "wrongpass" |} 1000 sample_db
  /\ login default_config sample_digest
       {| LoginRequest.email := Py.lit "a@x.com";
          LoginRequest.password := Py.lit "wrongpass" |} 1000 sample_db
     = (Raise (HTTPException 401 "Invalid credentials"), sample_db).
Proof.
  apply (login_failures_indistinguishable default_config sample_digest
           _ _ alice); reflexivity.
Defined.

(** C5: a stored string that is not a bcrypt hash (here the plaintext
    itself) makes [verify_password] raise instead of returning false. *)
Lemma verify_password_raises_on_unknown_hash :
  verify_password sample_digest (Py.lit "longenough1")
    (Passlib.NotAHash (Py.lit "longenough1"))
  = Raise ValueError.
Proof. reflexivity. Qed.

Lemma verify_password_outcomes_witness :
  verify_password sample_digest (Py.lit "longenough1")
    (User.password_hash alice) = Ok true
  /\ verify_password sample_digest (Py.lit "wrongpass")
       (User.password_hash alice) = Ok false.
Proof.
  split.
  - apply (verify_password_outcomes sample_digest (Py.lit "longenough1")
             (Py.lit "salt-a") (Py.lit "salt-alongenough1")
             (Py.lit "salt-alongenough1") eq_refl).
    reflexivity.
  - apply (verify_password_outcomes sample_digest (Py.lit "wrongpass")
             (Py.lit "salt-a") (Py.lit "salt-alongenough1")
             (Py.lit "salt-awrongpass") eq_refl).
    discriminate.
Defined.

Lemma positive_ids_sample_db : positive_ids sample_db.
Proof. repeat constructor; cbn; lia. Defined.

(** The token of the first user resolves to her; a third user signs up,
    logs in, and the access token resolves to the new row. *)
Lemma access_token_subject_round_trip_witness :
  get_current_user default_config (create_access_token default_config 1 1000)
    sample_db 2800 = Ok alice
  /\ exists resp created,
       login default_config sample_digest
         {| LoginRequest.email := Py.lit "c@x.com";
            LoginRequest.password := Py.lit "longenough1" |} 400
         (add_user sample_db (Py.lit "c@x.com")
            (Passlib.Bcrypt (Py.lit "salt-c") (Py.lit "salt-clongenough1"))
            300)
       = (Ok resp,
          add_user sample_db (Py.lit "c@x.com")
            (Passlib.Bcrypt (Py.lit "salt-c") (Py.lit "salt-clongenough1"))
            300)
       /\ User.id created = 3
       /\ get_current_user default_config (TokenResponse.access_token resp)
            (add_user sample_db (Py.lit "c@x.com")
               (Passlib.Bcrypt (Py.lit "salt-c") (Py.lit "salt-clongenough1"))
               300) 500
          = Ok created.
Proof.
  destruct (access_token_subject_round_trip default_config sample_digest)
    as (_ & H2 & H3). split.
  - apply (H2 1 1000 2800 sample_db alice);
      [exact positive_ids_sample_db | reflexivity | cbn; lia].
  - destruct (H3 {| SignupRequest.email := Py.lit "c@x.com";
                    SignupRequest.password := Py.lit "longenough1" |}
                (Py.lit "salt-c") 300 400 500 sample_db _ _ eq_refl)
      as (resp & created & Hl & Hu & _ & Hr); [cbn; lia|].
    exists resp, created. split; [exact Hl|]. split; [|exact Hr].
    cbn in Hu. now injection Hu as <-.
Defined.

(** A signup with the first user's email is refused; a signup with a new
    email adds the third row, after which a repeated signup is refused. *)
Lemma signup_conflict_or_insert_witness :
  signup sample_digest
    {| SignupRequest.email := Py.lit "a@x.com";
       SignupRequest.password := Py.lit "another-password" |}
    (Py.lit "salt-x") 300 sample_db
  = (Raise (HTTPException 409 "Email already registered"), sample_db)
  /\ exists created db',
       signup sample_digest
         {| SignupRequest.email := Py.lit "c@x.com";
            SignupRequest.password := Py.lit "longenough1" |}
         (Py.lit "salt-c") 300 sample_db
       = (Ok {| Message.message := "User created" |}, db')
       /\ users db' = [alice; bob; created]
       /\ User.password_hash created
          = Passlib.Bcrypt (Py.lit "salt-c") (Py.lit "salt-clongenough1")
       /\ count_email (Py.lit "c@x.com") db' = 1%nat.
Proof.
  split.
  - apply (proj1 (signup_conflict_or_insert sample_digest
                    {| SignupRequest.email := Py.lit "a@x.com";
                       SignupRequest.password := Py.lit "another-password" |}
                    (Py.lit "salt-x") 300 sample_db) alice).
    reflexivity.
  - destruct (proj1 (proj2 (signup_conflict_or_insert sample_digest
                       {| SignupRequest.email := Py.lit "c@x.com";
                          SignupRequest.password := Py.lit "longenough1" |}
                       (Py.lit "salt-c") 300 sample_db))
                _ eq_refl eq_refl)
      as (created & db' & Hs & Hu & _ & _ & Hh & _ & Hc & _).
    exists created, db'. repeat split; assumption.
Defined.

(** C7: a free email and a password of eleven characters, one of them NUL,
    which the hasher refuses: signup raises and the store has no new row. *)
Lemma signup_refused_password_adds_no_row :
  user_by_email sample_db (Py.lit "c@x.com") = None
  /\ signup sample_digest
       {| SignupRequest.email := Py.lit "c@x.com";
          SignupRequest.password := Py.lit "long" ++ [0%N] ++ Py.lit "enough" |}
       (Py.lit "salt-c") 300 sample_db
     = (Raise ValueError, sample_db).
Proof. split; reflexivity. Qed.

(** The first user's refresh token, used at second 2000 and again at second
    3000. *)
Lemma refresh_reissues_and_keeps_old_token_witness :
  exists again,
    refresh default_config
      {| RefreshRequest.refresh_token :=
           create_refresh_token default_config 1 1000 |} 3000
      (snd (refresh default_config
              {| RefreshRequest.refresh_token :=
                   create_refresh_token default_config 1 1000 |} 2000
              sample_db))
    = (Ok again, sample_db).
Proof.
  apply (proj2 (refresh_reissues_and_keeps_old_token default_config
                  {| Jose.sub := Some (Jose.JStr (Py.lit "1"));
                     Jose.type := Some (Jose.JStr (Py.lit "refresh"));
                     Jose.iat := Some 1000;
                     Jose.exp := Some 605800 |}
                  (Py.lit "1") 1 alice sample_db 2000 3000
                  eq_refl eq_refl eq_refl eq_refl eq_refl eq_refl)).
Defined.

(** The second user's token against the first user's note. *)
Lemma notes_isolated_between_users_witness :
  get_note default_config (create_access_token default_config 2 1000) 1 1500
    sample_db
  = (Raise (HTTPException 404 "Note not found"), sample_db)
  /\ delete_note default_config (create_access_token default_config 2 1000) 1
       1500 sample_db
     = (Raise (HTTPException 404 "Note not found"), sample_db)
  /\ exists l,
       list_notes default_config sample_ilike
         (create_access_token default_config 2 1000) None 100 0 1500 sample_db
       = (Ok l, sample_db)
       /\ ~ In alice_note l.
Proof.
  assert (Hne : Note.user_id alice_note <> User.id bob) by discriminate.
  destruct (notes_isolated_between_users default_config sample_ilike
              (create_access_token default_config 2 1000) 1 alice_note bob
              sample_db 1500 eq_refl eq_refl Hne)
    as (Hg & _ & Hd & Hl).
  split; [exact Hg|]. split; [exact Hd|].
  destruct (Hl None 100 0) as (l & H1 & H2 & _). now exists l.
Defined.

(** The subject "002" resolves to the second user, as "2" does. *)
Lemma decimal_subject_resolves_as_canonical_witness :
  get_current_user default_config
    (signed default_config
       {| Jose.sub := Some (Jose.JStr (Py.lit "002"));
          Jose.type := Some (Jose.JStr (Py.lit "access"));
          Jose.iat := Some 1000;
          Jose.exp := Some 2800 |}) sample_db 1500
  = get_current_user default_config
      (create_access_token default_config 2 1000) sample_db 1500.
Proof.
  apply (decimal_subject_resolves_as_canonical default_config
           {| Jose.sub := Some (Jose.JStr (Py.lit "002"));
              Jose.type := Some (Jose.JStr (Py.lit "access"));
              Jose.iat := Some 1000;
              Jose.exp := Some 2800 |} (Py.lit "002") 2 sample_db 1500
           eq_refl eq_refl eq_refl eq_refl).
Defined.

(** A signed subject is refused with 401. *)
Lemma non_digit_subject_unauthorized_witness :
  get_current_user default_config
    (signed default_config
       {| Jose.sub := Some (Jose.JStr (Py.lit "-2"));
          Jose.type := Some (Jose.JStr (Py.lit "access"));
          Jose.iat := Some 1000;
          Jose.exp := Some 2800 |}) sample_db 1500
  = unauthorized "Invalid access token".
Proof.
  apply (proj1 (non_digit_subject_unauthorized default_config
                  {| Jose.sub := Some (Jose.JStr (Py.lit "-2"));
                     Jose.type := Some (Jose.JStr (Py.lit "access"));
                     Jose.iat := Some 1000;
                     Jose.exp := Some 2800 |} (Py.lit "-2") sample_db 1500
                  eq_refl eq_refl eq_refl) eq_refl).
Defined.

(** The refresh token issued at second 2000 is accepted at second 3000. *)
Lemma issued_refresh_token_refreshes_witness :
  refresh default_config
    {| RefreshRequest.refresh_token :=
         create_refresh_token default_config 1 2000 |} 3000 sample_db
  = (Ok {| TokenResponse.access_token :=
             create_access_token default_config 1 3000;
           TokenResponse.refresh_token :=
             create_refresh_token default_config 1 3000;
           TokenResponse.token_type := "bearer" |}, sample_db).
Proof.
  apply (issued_refresh_token_refreshes default_config 1 2000 3000 sample_db
           alice positive_ids_sample_db eq_refl).
  cbn. lia.
Defined.

(** Hashing a password and verifying it against the result. *)
Lemma verify_hash_password_witness :
  verify_password sample_digest (Py.lit "longenough1")
    (Passlib.Bcrypt (Py.lit "salt-c") (Py.lit "salt-clongenough1"))
  = Ok true.
Proof.
  apply (verify_hash_password sample_digest (Py.lit "salt-c")
           (Py.lit "longenough1") _ eq_refl).
Defined.

(** ** Further properties of the routes and of the token functions *)

Section Coverage.

Variable cfg : Config.
Variable bcrypt_digest : Py.str -> Py.str -> option Py.str.
Variable ilike : Py.str -> Py.str -> bool.

(** *** What an accepted token is *)

Lemma _decode_token_ok (token : Jose.token) (payload : Jose.claims)
    (now : Z) :
  _decode_token cfg token now = Ok payload ->
  token = signed cfg payload
  /\ unexpired payload now
  /\ Jose.validate_sub payload = true.
Proof.
  unfold _decode_token, Jose.decode, signed, unexpired.
  destruct token as [alg k c|raw]; [|discriminate].
  cbn [existsb]. rewrite orb_false_r.
  destruct (Py.eqb alg (ALGORITHM cfg)) eqn:Ea; cbn [negb]; [|discriminate].
  destruct (Py.eqb k (SECRET_KEY cfg)) eqn:Ek; cbn [negb]; [|discriminate].
  destruct (Jose.validate_exp c now) eqn:Ee; cbn [negb]; [|discriminate].
  destruct (Jose.validate_sub c) eqn:Es; cbn [negb]; [|discriminate].
  intros [= <-]. apply eqb_eq in Ea, Ek. subst. auto.
Qed.

Lemma ne_str_false (v : option Jose.json) (s : Py.str) :
  ne_str v s = false -> v = Some (Jose.JStr s).
Proof.
  unfold ne_str. destruct v as [[| | |t]|]; try discriminate.
  intros H. apply negb_false_iff, eqb_eq in H. now subst.
Qed.

Lemma int_nonneg (s : Py.str) (n : Z) : Py.int s = Some n -> 0 <= n.
Proof.
  unfold Py.int. destruct s; [discriminate|].
  destruct (Py.int_from 0 _); [|discriminate]. intros [= <-]. lia.
Qed.

(** X5.  When [get_current_user] returns a user, the token was signed with
    the configured key and algorithm, is not expired, has type "access",
    and its subject is a digit string that converts to the key of the
    returned user, who is a row of the store. *)
Theorem get_current_user_sound (token : Jose.token) (db : Database)
    (now : Z) (user : User.t) :
  get_current_user cfg token db now = Ok user ->
  exists payload s,
    token = signed cfg payload
    /\ unexpired payload now
    /\ Jose.type payload = Some (Jose.JStr (Py.lit "access"))
    /\ Jose.sub payload = Some (Jose.JStr s)
    /\ Py.isdigit s = true
    /\ Py.int s = Some (User.id user)
    /\ 0 <= User.id user
    /\ In user (users db).
Proof.
  unfold get_current_user.
  destruct (_decode_token cfg token now) as [payload|e] eqn:D;
    cbn [bind]; [|discriminate].
  destruct (_decode_token_ok _ _ _ D) as (-> & Hexp & _).
  destruct (ne_str _ _) eqn:T; [discriminate|]. apply ne_str_false in T.
  destruct (Jose.sub payload) as [[| |z|s]|] eqn:S;
    try (destruct (negb (truthy _)); discriminate).
  destruct (truthy (Some (Jose.JStr s))); cbn [negb orb]; [|discriminate].
  destruct (Py.isdigit s) eqn:Hd; cbn [negb]; [|discriminate].
  destruct (Py.int s) as [n|] eqn:Hi; [|discriminate].
  destruct (get_user db n) as [u|] eqn:Hu; [|discriminate].
  intros [= ->]. destruct (get_user_some _ _ _ Hu) as [Hid Hin].
  exists payload, s. subst n. pose proof (int_nonneg _ _ Hi). auto 10.
Qed.

(** X6.  When [verify_refresh_token] returns an id, the token was signed
    with the configured key and algorithm, is not expired, has type
    "refresh", and the id is the non-negative integer its subject converts
    to. *)
Theorem verify_refresh_token_sound (token : Jose.token) (now n : Z) :
  verify_refresh_token cfg token now = Ok n ->
  exists payload s,
    token = signed cfg payload
    /\ unexpired payload now
    /\ Jose.type payload = Some (Jose.JStr (Py.lit "refresh"))
    /\ Jose.sub payload = Some (Jose.JStr s)
    /\ Py.isdigit s = true
    /\ Py.int s = Some n
    /\ 0 <= n.
Proof.
  unfold verify_refresh_token.
  destruct (_decode_token cfg token now) as [payload|e] eqn:D;
    cbn [bind]; [|discriminate].
  destruct (_decode_token_ok _ _ _ D) as (-> & Hexp & _).
  destruct (ne_str _ _) eqn:T; [discriminate|]. apply ne_str_false in T.
  destruct (Jose.sub payload) as [[| |z|s]|] eqn:S;
    try (destruct (negb (truthy _)); discriminate).
  destruct (truthy (Some (Jose.JStr s))); cbn [negb orb]; [|discriminate].
  destruct (Py.isdigit s) eqn:Hd; cbn [negb]; [|discriminate].
  destruct (Py.int s) as [m|] eqn:Hi; [|discriminate].
  intros [= ->]. exists payload, s. pose proof (int_nonneg _ _ Hi). auto 10.
Qed.

(** *** Lifetime of the tokens this service issues *)

(** X7.  An access token issued at second [issued] decodes through second
    [issued + 60 * ACCESS_TOKEN_EXPIRE_MINUTES] and is refused with 401
    from the next second on; a refresh token likewise with
    [86400 * REFRESH_TOKEN_EXPIRE_DAYS]. *)
Theorem issued_token_lifetime (n issued later : Z) :
  _decode_token cfg (create_access_token cfg n issued) later
  = (if later <=? issued + 60 * ACCESS_TOKEN_EXPIRE_MINUTES cfg
     then Ok {| Jose.sub := Some (Jose.JStr (Py.str_of_int n));
                Jose.type := Some (Jose.JStr (Py.lit "access"));
                Jose.iat := Some issued;
                Jose.exp :=
                  Some (issued + 60 * ACCESS_TOKEN_EXPIRE_MINUTES cfg) |}
     else unauthorized "Invalid token")
  /\ _decode_token cfg (create_refresh_token cfg n issued) later
     = (if later <=? issued + 86400 * REFRESH_TOKEN_EXPIRE_DAYS cfg
        then Ok {| Jose.sub := Some (Jose.JStr (Py.str_of_int n));
                   Jose.type := Some (Jose.JStr (Py.lit "refresh"));
                   Jose.iat := Some issued;
                   Jose.exp :=
                     Some (issued + 86400 * REFRESH_TOKEN_EXPIRE_DAYS cfg) |}
        else unauthorized "Invalid token").
Proof.
  rewrite create_access_token_signed, create_refresh_token_signed.
  unfold _decode_token. rewrite !decode_signed.
  unfold Jose.validate_exp, Jose.validate_sub. cbn [Jose.exp Jose.sub negb].
  rewrite !negb_involutive.
  split.
  - destruct (Z.leb_spec later (issued + 60 * ACCESS_TOKEN_EXPIRE_MINUTES cfg))
      as [H|H].
    + apply Z.ltb_ge in H. now rewrite H.
    + apply Z.ltb_lt in H. now rewrite H.
  - destruct (Z.leb_spec later
                (issued + 86400 * REFRESH_TOKEN_EXPIRE_DAYS cfg)) as [H|H].
    + apply Z.ltb_ge in H. now rewrite H.
    + apply Z.ltb_lt in H. now rewrite H.
Qed.

(** *** The notes routes behind the access token *)

Lemma notes_routes_auth_failure (token : Jose.token) (db : Database)
    (now : Z) (e : exn) :
  get_current_user cfg token db now = Raise e ->
  (forall q limit offset,
      list_notes cfg ilike token q limit offset now db = (Raise e, db))
  /\ (forall payload, create_note cfg token payload now db = (Raise e, db))
  /\ (forall note_id, get_note cfg token note_id now db = (Raise e, db))
  /\ (forall note_id payload,
        update_note cfg token note_id payload now db = (Raise e, db))
  /\ (forall note_id, delete_note cfg token note_id now db = (Raise e, db)).
Proof.
  intros H. unfold list_notes, create_note, get_note, update_note, delete_note.
  rewrite H. repeat split.
Qed.

(** X8.  A refresh token this service issued opens no notes route: list,
    create, get, update and delete all answer 401 ("Invalid access token"
    while the token is unexpired, "Invalid token" afterwards) and leave the
    store as it was. *)
Theorem notes_routes_refuse_refresh_token (n issued now : Z)
    (db : Database) :
  exists detail,
    detail = (if now <=? issued + 86400 * REFRESH_TOKEN_EXPIRE_DAYS cfg
              then "Invalid access token"%string
              else "Invalid token"%string)
    /\ (forall q limit offset,
          list_notes cfg ilike (create_refresh_token cfg n issued)
            q limit offset now db
          = (Raise (HTTPException 401 detail), db))
    /\ (forall payload,
          create_note cfg (create_refresh_token cfg n issued) payload now db
          = (Raise (HTTPException 401 detail), db))
    /\ (forall note_id,
          get_note cfg (create_refresh_token cfg n issued) note_id now db
          = (Raise (HTTPException 401 detail), db))
    /\ (forall note_id payload,
          update_note cfg (create_refresh_token cfg n issued) note_id payload
            now db
          = (Raise (HTTPException 401 detail), db))
    /\ (forall note_id,
          delete_note cfg (create_refresh_token cfg n issued) note_id now db
          = (Raise (HTTPException 401 detail), db)).
Proof.
  eexists. split; [reflexivity|].
  apply notes_routes_auth_failure.
  rewrite create_refresh_token_signed.
  unfold get_current_user, _decode_token. rewrite decode_signed.
  unfold Jose.validate_exp, Jose.validate_sub. cbn [Jose.exp Jose.sub negb].
  rewrite negb_involutive.
  destruct (Z.leb_spec now (issued + 86400 * REFRESH_TOKEN_EXPIRE_DAYS cfg))
    as [H|H].
  - apply Z.ltb_ge in H. rewrite H. reflexivity.
  - apply Z.ltb_lt in H. rewrite H. reflexivity.
Qed.

(** Identity resolution reads the user table only. *)
Lemma get_current_user_users (token : Jose.token) (db db' : Database)
    (now : Z) :
  users db' = users db ->
  get_current_user cfg token db' now = get_current_user cfg token db now.
Proof.
  intros H. unfold get_current_user, get_user. now rewrite H.
Qed.

Lemma get_note_row_some (db : Database) (k : Z) (n : Note.t) :
  get_note_row db k = Some n -> Note.id n = k /\ In n (notes db).
Proof.
  unfold get_note_row. intros H. apply find_some in H as [Hin Hk].
  split; [lia | exact Hin].
Qed.

Lemma get_note_row_fresh (db : Database) :
  get_note_row db (next_id (map Note.id (notes db))) = None.
Proof.
  destruct (get_note_row db _) as [n|] eqn:E; [|reflexivity].
  apply get_note_row_some in E as [Hid Hin].
  pose proof (next_id_gt _ _ (in_map Note.id _ _ Hin)). lia.
Qed.

(** A row lookup after [put_note]. *)
Lemma get_note_row_put (db : Database) (note : Note.t) (k : Z) :
  get_note_row (put_note db note) k =
  if k =? Note.id note then
    match get_note_row db k with
    | Some _ => Some note
    | None => None
    end
  else get_note_row db k.
Proof.
  unfold get_note_row, put_note. cbn [notes].
  induction (notes db) as [|x l IH]; cbn [map find].
  - now destruct (k =? Note.id note).
  - rewrite IH.
    destruct (Z.eqb_spec (Note.id x) (Note.id note)) as [E1|E1];
      destruct (Z.eqb_spec k (Note.id note)) as [E2|E2];
      destruct (Z.eqb_spec (Note.id x) k) as [E3|E3];
      try reflexivity; try congruence.
    + destruct (Z.eqb_spec (Note.id note) k); congruence.
    + destruct (Z.eqb_spec (Note.id note) k); congruence.
Qed.

(** A row lookup after [delete_note_row]. *)
Lemma get_note_row_delete (db : Database) (note : Note.t) (k : Z) :
  get_note_row (delete_note_row db note) k =
  if k =? Note.id note then None else get_note_row db k.
Proof.
  unfold get_note_row, delete_note_row. cbn [notes].
  induction (notes db) as [|x l IH]; cbn [filter find].
  - now destruct (k =? Note.id note).
  - destruct (Note.id x =? Note.id note) eqn:E1; cbn [negb find].
    + rewrite IH. apply Z.eqb_eq in E1. rewrite E1.
      destruct (k =? Note.id note) eqn:E2; [reflexivity|].
      now rewrite Z.eqb_sym, E2.
    + destruct (Note.id x =? k) eqn:E3; [|exact IH].
      apply Z.eqb_eq in E3. subst k. now rewrite E1.
Qed.

(** X9.  With a token that resolves to a user, [create_note] appends one
    note owned by that user, with the title and content of the request, a
    key above every key in use and both timestamps at the store time; the
    user table is untouched, and the same token then reads the note back
    with [get_note]. *)
Theorem create_note_then_get (token : Jose.token) (payload : NoteCreate.t)
    (now : Z) (db : Database) (user : User.t) :
  get_current_user cfg token db now = Ok user ->
  exists note db',
    create_note cfg token payload now db = (Ok note, db')
    /\ notes db' = notes db ++ [note]
    /\ users db' = users db
    /\ Note.user_id note = User.id user
    /\ Note.title note = NoteCreate.title payload
    /\ Note.content note = NoteCreate.content payload
    /\ Note.created_at note = now
    /\ Note.updated_at note = now
    /\ Forall (fun m => Note.id m < Note.id note) (notes db)
    /\ get_note cfg token (Note.id note) now db' = (Ok note, db').
Proof.
  intros Hu. unfold create_note. rewrite Hu. unfold add_note.
  eexists. eexists. split; [reflexivity|].
  repeat (split; [reflexivity|]). split.
  - apply Forall_forall. intros m Hm. cbn [Note.id].
    apply next_id_gt. now apply in_map.
  - unfold get_note. rewrite (get_current_user_users token db); [|reflexivity].
    rewrite Hu. pose proof (get_note_row_fresh db) as F.
    unfold get_note_row in *. cbn [notes Note.id].
    rewrite (find_app_none _ _ _ F). cbn [Note.id Note.user_id].
    now rewrite !Z.eqb_refl.
Qed.

(** X10.  An update by the owner returns the note with the fields of the
    request replaced and its key, owner and creation time kept;
    [updated_at] becomes the store time exactly when title or content
    changed.  The new row is what a lookup of that key then finds, every
    other key looks up as before, and the user table is untouched. *)
Theorem update_note_by_owner (token : Jose.token) (note_id : Z)
    (payload : NoteUpdate.t) (now : Z) (db : Database) (user : User.t)
    (note : Note.t) :
  get_current_user cfg token db now = Ok user ->
  get_note_row db note_id = Some note ->
  Note.user_id note = User.id user ->
  exists note' db',
    update_note cfg token note_id payload now db = (Ok note', db')
    /\ Note.id note' = note_id
    /\ Note.user_id note' = User.id user
    /\ Note.created_at note' = Note.created_at note
    /\ Note.title note' =
       match NoteUpdate.title payload with
       | Some t => t
       | None => Note.title note
       end
    /\ Note.content note' =
       match NoteUpdate.content payload with
       | Some c => c
       | None => Note.content note
       end
    /\ (Note.title note' = Note.title note ->
        Note.content note' = Note.content note -> note' = note)
    /\ (Note.title note' <> Note.title note
        \/ Note.content note' <> Note.content note ->
        Note.updated_at note' = now)
    /\ get_note_row db' note_id = Some note'
    /\ (forall k, k <> note_id -> get_note_row db' k = get_note_row db k)
    /\ users db' = users db
    /\ List.length (notes db') = List.length (notes db).
Proof.
  intros Hu Hn Ho. destruct (get_note_row_some _ _ _ Hn) as [Hid _].
  apply Z.eqb_eq in Ho as Hb.
  unfold update_note. rewrite Hu, Hn, Hb. cbn [negb].
  eexists. eexists. split; [reflexivity|]. cbn [Note.id Note.user_id
    Note.created_at Note.title Note.content Note.updated_at].
  split; [exact Hid|]. split; [exact Ho|]. do 3 (split; [reflexivity|]).
  split; [|split; [|split; [|split; [|split]]]].
  - intros Ht Hc. rewrite Ht, Hc, !eqb_refl. cbn [andb negb].
    now destruct note.
  - intros Hd.
    destruct (Py.eqb _ (Note.title note)) eqn:Et;
      destruct (Py.eqb _ (Note.content note)) eqn:Ec;
      cbn [andb negb]; try reflexivity.
    apply eqb_eq in Et, Ec. tauto.
  - rewrite get_note_row_put. cbn [Note.id]. now rewrite Hid, Z.eqb_refl, Hn.
  - intros k Hk. rewrite get_note_row_put. cbn [Note.id].
    rewrite Hid. apply Z.eqb_neq in Hk. now rewrite Hk.
  - reflexivity.
  - unfold put_note. cbn [notes]. apply length_map.
Qed.

(** X11.  A delete by the owner answers without error and leaves no row
    with that key: the same token then gets 404 from [get_note] and from a
    second [delete_note].  Every other key looks up as before and the user
    table is untouched. *)
Theorem delete_note_by_owner (token : Jose.token) (note_id : Z) (now : Z)
    (db : Database) (user : User.t) (note : Note.t) :
  get_current_user cfg token db now = Ok user ->
  get_note_row db note_id = Some note ->
  Note.user_id note = User.id user ->
  exists db',
    delete_note cfg token note_id now db = (Ok tt, db')
    /\ get_note_row db' note_id = None
    /\ (forall k, k <> note_id -> get_note_row db' k = get_note_row db k)
    /\ users db' = users db
    /\ get_note cfg token note_id now db'
       = (Raise (HTTPException 404 "Note not found"), db')
    /\ delete_note cfg token note_id now db'
       = (Raise (HTTPException 404 "Note not found"), db').
Proof.
  intros Hu Hn Ho. destruct (get_note_row_some _ _ _ Hn) as [Hid _].
  apply Z.eqb_eq in Ho as Hb.
  unfold delete_note at 1. rewrite Hu, Hn, Hb. cbn [negb].
  eexists. split; [reflexivity|].
  assert (Hgone : get_note_row (delete_note_row db note) note_id = None).
  { rewrite get_note_row_delete. now rewrite Hid, Z.eqb_refl. }
  split; [exact Hgone|]. split.
  - intros k Hk. rewrite get_note_row_delete, Hid.
    apply Z.eqb_neq in Hk. now rewrite Hk.
  - split; [reflexivity|]. unfold get_note, delete_note.
    rewrite (get_current_user_users token db); [|reflexivity].
    rewrite Hu, Hgone. split; reflexivity.
Qed.

(** *** Key constraints as invariants *)

Lemma NoDup_snoc {A} (l : list A) (x : A) :
  NoDup l -> ~ In x l -> NoDup (l ++ [x]).
Proof.
  induction 1 as [|y l Hy Hl IH]; cbn [app]; intros Hx.
  - constructor; [intros []|constructor].
  - constructor.
    + rewrite in_app_iff. cbn [In]. intros [H|[H|[]]]; [tauto|].
      subst. apply Hx. now left.
    + apply IH. intros H. apply Hx. now right.
Qed.

Lemma user_by_email_none (db : Database) (e : Py.str) :
  user_by_email db e = None -> ~ In e (map User.email (users db)).
Proof.
  unfold user_by_email. intros H Hin. apply in_map_iff in Hin
    as (u & He & Hu).
  pose proof (find_none _ _ H u Hu) as F. cbn in F.
  apply eqb_neq in F. congruence.
Qed.

Lemma put_note_ids (db : Database) (note : Note.t) :
  map Note.id (notes (put_note db note)) = map Note.id (notes db).
Proof.
  unfold put_note. cbn [notes]. rewrite map_map. apply map_ext.
  intros n. destruct (Z.eqb_spec (Note.id n) (Note.id note)); congruence.
Qed.

Lemma delete_note_row_ids (db : Database) (note : Note.t) :
  map Note.id (notes (delete_note_row db note)) =
  filter (fun k => negb (k =? Note.id note)) (map Note.id (notes db)).
Proof.
  unfold delete_note_row. cbn [notes].
  induction (notes db) as [|x l IH]; cbn [filter map]; [reflexivity|].
  destruct (Note.id x =? Note.id note); cbn [negb map]; now rewrite IH.
Qed.

(** X12.  Unique primary keys in both tables and unique emails are kept by
    every route that writes: signup, create, update and delete. *)
Theorem unique_keys_preserved (db : Database) :
  unique_keys db ->
  (forall payload salt now,
      unique_keys (snd (signup bcrypt_digest payload salt now db)))
  /\ (forall token payload now,
        unique_keys (snd (create_note cfg token payload now db)))
  /\ (forall token note_id payload now,
        unique_keys (snd (update_note cfg token note_id payload now db)))
  /\ (forall token note_id now,
        unique_keys (snd (delete_note cfg token note_id now db))).
Proof.
  intros K. pose proof K as (Hu & He & Hn). repeat apply conj.
  - intros payload salt now. unfold signup.
    destruct (user_by_email db _) eqn:E; [exact K|].
    destruct (hash_password _ _ _); [|exact K].
    unfold unique_keys, add_user. cbn [snd users notes].
    rewrite !map_app. cbn [map User.id User.email].
    repeat apply conj; [| |exact Hn]; apply NoDup_snoc; try assumption.
    + intros H. apply next_id_gt in H. lia.
    + now apply user_by_email_none.
  - intros token payload now. unfold create_note.
    destruct (get_current_user _ _ _ _); [|exact K].
    unfold unique_keys, add_note. cbn [snd users notes].
    rewrite map_app. cbn [map Note.id].
    repeat apply conj; [exact Hu|exact He|].
    apply NoDup_snoc; [assumption|]. intros H. apply next_id_gt in H. lia.
  - intros token note_id payload now. unfold update_note.
    destruct (get_current_user _ _ _ _); [|exact K].
    destruct (get_note_row db note_id); [|exact K].
    destruct (negb _); [exact K|]. cbn [snd]. unfold unique_keys.
    rewrite put_note_ids. now repeat apply conj.
  - intros token note_id now. unfold delete_note.
    destruct (get_current_user _ _ _ _); [|exact K].
    destruct (get_note_row db note_id); [|exact K].
    destruct (negb _); [exact K|]. cbn [snd]. unfold unique_keys.
    rewrite delete_note_row_ids.
    repeat apply conj; [exact Hu|exact He|now apply NoDup_filter].
Qed.

(** *** Listings *)





Lemma forall_skipn {A} (P : A -> Prop) (k : nat) (l : list A) :
  Forall P l -> Forall P (skipn k l).
Proof.
  rewrite !Forall_forall. intros H x Hx. apply H. now apply in_skipn in Hx.
Qed.








Lemma firstn_plus {A} (a b : nat) : forall l : list A,
  firstn (a + b) l = firstn a l ++ firstn b (skipn a l).
Proof.
  induction a as [|a IH]; intros [|x l]; cbn [Nat.add firstn skipn app];
    try reflexivity.
  - now rewrite firstn_nil.
  - now rewrite IH.
Qed.

(** X14.  Consecutive pages join up: the page of [a] notes from [offset]
    followed by the page of [b] notes from [offset + a] is the page of
    [a + b] notes from [offset], with no note skipped or repeated at the
    seam (all three queries valid, the offsets within what the store can
    bind). *)
Theorem list_notes_pages_concat (token : Jose.token) (q : option Py.str)
    (a b offset : Z) (now : Z) (db : Database) (l1 l2 : list Note.t) :
  list_query_valid a offset ->
  list_query_valid b (offset + a) ->
  list_query_valid (a + b) offset ->
  offset + a <= MAX_STORE_INTEGER ->
  list_notes cfg ilike token q a offset now db = (Ok l1, db) ->
  list_notes cfg ilike token q b (offset + a) now db = (Ok l2, db) ->
  list_notes cfg ilike token q (a + b) offset now db = (Ok (l1 ++ l2), db).
Proof.
  intros [Ha Ho] [Hb _] _ _. unfold list_notes.
  destruct (get_current_user cfg token db now) as [user|e]; [|discriminate].
  intros [= <-] [= <-]. do 2 f_equal.
  rewrite !Z2Nat.inj_add by lia. rewrite firstn_plus. f_equal.
  now rewrite skipn_skipn, Nat.add_comm.
Qed.

(** *** Login *)

Lemma get_user_unique (db : Database) (u : User.t) :
  NoDup (map User.id (users db)) ->
  In u (users db) ->
  get_user db (User.id u) = Some u.
Proof.
  unfold get_user. induction (users db) as [|x l IH]; cbn [map In find].
  - intros _ [].
  - intros Hnd Hin. inversion Hnd as [|? ? Hx Hl]; subst.
    destruct (Z.eqb_spec (User.id x) (User.id u)) as [E|E].
    + destruct Hin as [->|Hin]; [reflexivity|].
      exfalso. apply Hx. rewrite E. now apply in_map.
    + destruct Hin as [->|Hin]; [congruence|]. now apply IH.
Qed.

(** X15.  In a store with positive, unique user keys, login with a
    registered email and a password that verifies returns a token pair for
    that user and changes nothing; within its lifetime the access token
    resolves to the same user and the refresh token verifies to the user's
    key. *)
Theorem login_success (payload : LoginRequest.t) (now : Z) (db : Database)
    (user : User.t) :
  positive_ids db ->
  NoDup (map User.id (users db)) ->
  user_by_email db (LoginRequest.email payload) = Some user ->
  verify_password bcrypt_digest (LoginRequest.password payload)
    (User.password_hash user) = Ok true ->
  login cfg bcrypt_digest payload now db
  = (Ok {| TokenResponse.access_token :=
             create_access_token cfg (User.id user) now;
           TokenResponse.refresh_token :=
             create_refresh_token cfg (User.id user) now;
           TokenResponse.token_type := "bearer" |}, db)
  /\ (forall later,
        later <= now + 60 * ACCESS_TOKEN_EXPIRE_MINUTES cfg ->
        get_current_user cfg (create_access_token cfg (User.id user) now)
          db later = Ok user)
  /\ (forall later,
        later <= now + 86400 * REFRESH_TOKEN_EXPIRE_DAYS cfg ->
        verify_refresh_token cfg
          (create_refresh_token cfg (User.id user) now) later
        = Ok (User.id user)).
Proof.
  intros Hpos Hnd He Hv.
  assert (Hin : In user (users db)).
  { unfold user_by_email in He. now apply find_some in He. }
  assert (Hn : 0 <= User.id user).
  { unfold positive_ids in Hpos. rewrite Forall_forall in Hpos.
    specialize (Hpos user Hin). lia. }
  destruct (int_str_of_int _ Hn) as [Hint Hdig].
  split; [unfold login; now rewrite He, Hv|]. split.
  - intros later Hl. apply resolve_access_token; try assumption.
    now apply get_user_unique.
  - intros later Hl. rewrite create_refresh_token_signed.
    rewrite (verify_refresh_token_signed _ _ (Py.str_of_int (User.id user)));
      [now rewrite Hint | | reflexivity | reflexivity | exact Hdig].
    unfold unexpired, Jose.validate_exp. cbn [Jose.exp].
    apply negb_true_iff, Z.ltb_ge. exact Hl.
Qed.

(** X16.  Tokens issued for a key in the store's integer range that no
    user row has are refused with 401 "User not found", by identity
    resolution and by refresh, and the store stays as it was. *)
Theorem issued_tokens_of_absent_user (n issued later : Z) (db : Database) :
  0 <= n <= MAX_STORE_INTEGER ->
  get_user db n = None ->
  (later <= issued + 60 * ACCESS_TOKEN_EXPIRE_MINUTES cfg ->
   get_current_user cfg (create_access_token cfg n issued) db later
   = unauthorized "User not found")
  /\ (later <= issued + 86400 * REFRESH_TOKEN_EXPIRE_DAYS cfg ->
      refresh cfg
        {| RefreshRequest.refresh_token := create_refresh_token cfg n issued |}
        later db
      = (unauthorized "User not found", db)).
Proof.
  intros [Hn _] Hu. destruct (int_str_of_int _ Hn) as [Hint Hdig]. split.
  - intros Hl. rewrite create_access_token_signed.
    rewrite (get_current_user_signed _ _ (Py.str_of_int n));
      [now rewrite Hint, Hu | | reflexivity | reflexivity | exact Hdig].
    unfold unexpired, Jose.validate_exp. cbn [Jose.exp].
    apply negb_true_iff, Z.ltb_ge. exact Hl.
  - intros Hl. unfold refresh. cbn [RefreshRequest.refresh_token].
    rewrite create_refresh_token_signed.
    rewrite (verify_refresh_token_signed _ _ (Py.str_of_int n));
      [now rewrite Hint, Hu | | reflexivity | reflexivity | exact Hdig].
    unfold unexpired, Jose.validate_exp. cbn [Jose.exp].
    apply negb_true_iff, Z.ltb_ge. exact Hl.
Qed.

(** *** What the routes leave alone *)

(** X17.  Login, refresh, get and list never change the store, whatever
    they answer.  Signup never touches the notes and at most appends one
    row to the users; create, update and delete never touch the users. *)
Theorem routes_frame (db : Database) (now : Z) :
  (forall payload, snd (login cfg bcrypt_digest payload now db) = db)
  /\ (forall payload, snd (refresh cfg payload now db) = db)
  /\ (forall token note_id, snd (get_note cfg token note_id now db) = db)
  /\ (forall token q limit offset,
        snd (list_notes cfg ilike token q limit offset now db) = db)
  /\ (forall payload salt,
        notes (snd (signup bcrypt_digest payload salt now db)) = notes db
        /\ exists added,
             users (snd (signup bcrypt_digest payload salt now db))
             = users db ++ added
             /\ (List.length added <= 1)%nat)
  /\ (forall token payload,
        users (snd (create_note cfg token payload now db)) = users db)
  /\ (forall token note_id payload,
        users (snd (update_note cfg token note_id payload now db)) = users db)
  /\ (forall token note_id,
        users (snd (delete_note cfg token note_id now db)) = users db).
Proof.
  repeat apply conj.
  - intros payload. unfold login. destruct (user_by_email db _); [|reflexivity].
    now destruct (verify_password _ _ _) as [[|]|].
  - intros payload. unfold refresh.
    destruct (verify_refresh_token _ _ _); [|reflexivity].
    now destruct (get_user db _).
  - intros token note_id. unfold get_note.
    destruct (get_current_user _ _ _ _); [|reflexivity].
    destruct (get_note_row db note_id); [|reflexivity].
    now destruct (negb _).
  - intros token q limit offset. unfold list_notes.
    now destruct (get_current_user _ _ _ _).
  - intros payload salt. unfold signup.
    destruct (user_by_email db _);
      [split; [reflexivity|];
       exists []; split; [now rewrite app_nil_r | cbn; lia]|].
    destruct (hash_password _ _ _);
      [|split; [reflexivity|];
        exists []; split; [now rewrite app_nil_r | cbn; lia]].
    split; [reflexivity|]. eexists. split; [reflexivity|]. cbn. lia.
  - intros token payload. unfold create_note.
    now destruct (get_current_user _ _ _ _).
  - intros token note_id payload. unfold update_note.
    destruct (get_current_user _ _ _ _); [|reflexivity].
    destruct (get_note_row db note_id); [|reflexivity].
    now destruct (negb _).
  - intros token note_id. unfold delete_note.
    destruct (get_current_user _ _ _ _); [|reflexivity].
    destruct (get_note_row db note_id); [|reflexivity].
    now destruct (negb _).
Qed.

(** *** Title length *)

(** X18.  When every stored title has at most 200 characters, it stays so
    after a create or an update whose body passed validation, and after a
    delete. *)
Theorem titles_fit_preserved (db : Database) :
  titles_fit db ->
  (forall token payload now,
      NoteCreate_valid payload ->
      titles_fit (snd (create_note cfg token payload now db)))
  /\ (forall token note_id payload now,
        NoteUpdate_valid payload ->
        titles_fit (snd (update_note cfg token note_id payload now db)))
  /\ (forall token note_id now,
        titles_fit (snd (delete_note cfg token note_id now db))).
Proof.
  intros K. pose proof K as F. unfold titles_fit in F.
  rewrite Forall_forall in F. repeat apply conj.
  - intros token payload now V. unfold create_note.
    destruct (get_current_user _ _ _ _); [|exact K].
    unfold titles_fit, add_note. cbn [snd notes].
    apply Forall_app. split; [exact K|]. constructor; [exact V|constructor].
  - intros token note_id payload now V. unfold update_note.
    destruct (get_current_user _ _ _ _); [|exact K].
    destruct (get_note_row db note_id) as [note|] eqn:G; [|exact K].
    destruct (negb _); [exact K|]. cbn [snd].
    unfold titles_fit, put_note. cbn [notes].
    apply Forall_forall. intros x Hx. apply in_map_iff in Hx
      as (y & <- & Hy).
    destruct (Note.id y =? _); [|apply F; exact Hy].
    cbn [Note.title]. unfold NoteUpdate_valid in V.
    destruct (NoteUpdate.title payload); [exact V|].
    apply F. now apply get_note_row_some in G.
  - intros token note_id now. unfold delete_note.
    destruct (get_current_user _ _ _ _); [|exact K].
    destruct (get_note_row db note_id) as [note|]; [|exact K].
    destruct (negb _); [exact K|]. cbn [snd].
    unfold titles_fit, delete_note_row. cbn [notes].
    apply Forall_forall. intros x Hx. apply filter_In in Hx. now apply F.
Qed.

(** *** Writes and the notes of other users *)

Lemma same_id_same_row (l : list Note.t) (x y : Note.t) :
  NoDup (map Note.id l) -> In x l -> In y l -> Note.id x = Note.id y -> x = y.
Proof.
  induction l as [|z l IH]; cbn [map In]; [tauto|].
  intros Hnd Hx Hy E. inversion Hnd as [|? ? Hz Hl]; subst.
  destruct Hx as [->|Hx], Hy as [->|Hy]; auto.
  - exfalso. apply Hz. rewrite E. now apply in_map.
  - exfalso. apply Hz. rewrite <- E. now apply in_map.
Qed.

Lemma put_note_same (db : Database) (note : Note.t) :
  NoDup (map Note.id (notes db)) ->
  In note (notes db) ->
  put_note db note = db.
Proof.
  intros Hnd Hin. unfold put_note. destruct db as [us ns].
  cbn [users notes] in *.
  f_equal. rewrite <- (map_id ns) at 2. apply map_ext_in. intros n Hn.
  destruct (Z.eqb_spec (Note.id n) (Note.id note)) as [E|E]; [|reflexivity].
  symmetry. now apply (same_id_same_row ns).
Qed.

(** X19.  In a store with unique note keys, a successful create, update or
    delete made with one user's token leaves the notes of every other user
    exactly as they were. *)
Theorem writes_leave_other_users_notes (token : Jose.token) (now : Z)
    (db : Database) (writer : User.t) (other : Z) :
  unique_keys db ->
  get_current_user cfg token db now = Ok writer ->
  other <> User.id writer ->
  (forall payload,
      notes_of other (snd (create_note cfg token payload now db))
      = notes_of other db)
  /\ (forall note_id payload,
        notes_of other (snd (update_note cfg token note_id payload now db))
        = notes_of other db)
  /\ (forall note_id,
        notes_of other (snd (delete_note cfg token note_id now db))
        = notes_of other db).
Proof.
  intros (_ & _ & Hnd) Hu Hne. apply Z.eqb_neq in Hne as Hb.
  rewrite Z.eqb_sym in Hb. repeat apply conj.
  - intros payload. unfold create_note. rewrite Hu.
    unfold notes_of, add_note. cbn [snd notes].
    rewrite filter_app. cbn [filter Note.user_id]. rewrite Hb.
    apply app_nil_r.
  - intros note_id payload. unfold update_note. rewrite Hu.
    destruct (get_note_row db note_id) as [note|] eqn:G; [|reflexivity].
    destruct (Z.eqb_spec (Note.user_id note) (User.id writer)) as [Ho|Ho];
      cbn [negb]; [|reflexivity].
    cbn [snd]. apply get_note_row_some in G as [_ Hin].
    unfold notes_of, put_note. cbn [notes Note.id].
    assert (H : forall y, In y (notes db) ->
                Note.id y = Note.id note -> y = note).
    { intros y Hy E. now apply (same_id_same_row (notes db)). }
    revert H. generalize (notes db) as l.
    induction l as [|y l IH]; intros H; cbn [map filter]; [reflexivity|].
    rewrite IH by (intros z Hz; apply H; now right).
    destruct (Z.eqb_spec (Note.id y) (Note.id note)) as [E|E];
      [|reflexivity].
    rewrite (H y (or_introl eq_refl) E). cbn [Note.user_id].
    now rewrite Ho, Hb.
  - intros note_id. unfold delete_note. rewrite Hu.
    destruct (get_note_row db note_id) as [note|] eqn:G; [|reflexivity].
    destruct (Z.eqb_spec (Note.user_id note) (User.id writer)) as [Ho|Ho];
      cbn [negb]; [|reflexivity].
    cbn [snd]. apply get_note_row_some in G as [_ Hin].
    unfold notes_of, delete_note_row. cbn [notes].
    assert (H : forall y, In y (notes db) ->
                Note.id y = Note.id note -> y = note).
    { intros y Hy E. now apply (same_id_same_row (notes db)). }
    revert H. generalize (notes db) as l.
    induction l as [|y l IH]; intros H; cbn [filter]; [reflexivity|].
    destruct (Z.eqb_spec (Note.id y) (Note.id note)) as [E|E]; cbn [negb].
    + rewrite IH by (intros z Hz; apply H; now right).
      rewrite (H y (or_introl eq_refl) E). now rewrite Ho, Hb.
    + cbn [filter]. rewrite IH by (intros z Hz; apply H; now right).
      reflexivity.
Qed.

(** X20.  In a store with unique note keys, an update by the owner whose
    body sets nothing, or sets title and content to what they already are,
    returns the note as it is and leaves the whole store as it was:
    [updated_at] is not touched. *)
Theorem update_note_without_change (token : Jose.token) (note_id : Z)
    (payload : NoteUpdate.t) (now : Z) (db : Database) (user : User.t)
    (note : Note.t) :
  unique_keys db ->
  get_current_user cfg token db now = Ok user ->
  get_note_row db note_id = Some note ->
  Note.user_id note = User.id user ->
  (NoteUpdate.title payload = None
   \/ NoteUpdate.title payload = Some (Note.title note)) ->
  (NoteUpdate.content payload = None
   \/ NoteUpdate.content payload = Some (Note.content note)) ->
  update_note cfg token note_id payload now db = (Ok note, db).
Proof.
  intros (_ & _ & Hnd) Hu Hn Ho Ht Hc. apply Z.eqb_eq in Ho as Hb.
  unfold update_note. rewrite Hu, Hn, Hb. cbn [negb].
  assert (Et : match NoteUpdate.title payload with
               | Some t => t
               | None => Note.title note
               end = Note.title note) by (destruct Ht as [->| ->]; reflexivity).
  assert (Ec : match NoteUpdate.content payload with
               | Some c => c
               | None => Note.content note
               end = Note.content note)
    by (destruct Hc as [->| ->]; reflexivity).
  rewrite Et, Ec, !eqb_refl. cbn [andb negb].
  replace {| Note.id := Note.id note;
             Note.user_id := Note.user_id note;
             Note.title := Note.title note;
             Note.content := Note.content note;
             Note.created_at := Note.created_at note;
             Note.updated_at := Note.updated_at note |}
    with note by now destruct note.
  rewrite put_note_same; [reflexivity|exact Hnd|].
  now apply get_note_row_some in Hn.
Qed.

(** *** Login with a password the hasher refuses *)

(** C4 (evaluation at the failing inputs).  When the hasher refuses the
    password, login with an email that is not registered answers 401
    "Invalid credentials", while login with a registered email lets the
    [ValueError] of [verify_password] escape: the two responses differ, and
    the difference tells whether the email is registered. *)
Theorem login_refused_password_reveals_registration
    (absent registered : LoginRequest.t) (user : User.t)
    (salt checksum : Py.str) (now : Z) (db : Database) :
  user_by_email db (LoginRequest.email absent) = None ->
  user_by_email db (LoginRequest.email registered) = Some user ->
  User.password_hash user = Passlib.Bcrypt salt checksum ->
  bcrypt_digest salt (LoginRequest.password registered) = None ->
  login cfg bcrypt_digest absent now db
  = (Raise (HTTPException 401 "Invalid credentials"), db)
  /\ login cfg bcrypt_digest registered now db = (Raise ValueError, db).
Proof.
  intros Ha Hr Hh Hd. unfold login, verify_password, Passlib.verify.
  now rewrite Ha, Hr, Hh, Hd.
Qed.

End Coverage.

(** ** The further properties at concrete inputs *)

Lemma unique_keys_sample_db : unique_keys sample_db.
Proof.
  repeat split; repeat constructor; cbn; intuition discriminate.
Defined.

Lemma list_query_valid_page (limit offset : Z) :
  (1 <=? limit) && (limit <=? 200) && (0 <=? offset) = true ->
  list_query_valid limit offset.
Proof.
  intros H. apply andb_prop in H as [H H3]. apply andb_prop in H as [H1 H2].
  unfold list_query_valid. lia.
Defined.

(** The first user's access token, resolved at second 1500. *)
Lemma get_current_user_sound_witness :
  exists payload s,
    create_access_token default_config 1 1000 = signed default_config payload
    /\ unexpired payload 1500
    /\ Jose.type payload = Some (Jose.JStr (Py.lit "access"))
    /\ Jose.sub payload = Some (Jose.JStr s)
    /\ Py.isdigit s = true
    /\ Py.int s = Some (User.id alice)
    /\ 0 <= User.id alice
    /\ In alice (users sample_db).
Proof.
  exact (get_current_user_sound default_config
           (create_access_token default_config 1 1000) sample_db 1500 alice
           eq_refl).
Defined.

(** The second user's refresh token, verified at second 1500. *)
Lemma verify_refresh_token_sound_witness :
  exists payload s,
    create_refresh_token default_config 2 1000 = signed default_config payload
    /\ unexpired payload 1500
    /\ Jose.type payload = Some (Jose.JStr (Py.lit "refresh"))
    /\ Jose.sub payload = Some (Jose.JStr s)
    /\ Py.isdigit s = true
    /\ Py.int s = Some 2
    /\ 0 <= 2.
Proof.
  exact (verify_refresh_token_sound default_config
           (create_refresh_token default_config 2 1000) 1500 2 eq_refl).
Defined.

(** The second user creates a note and reads it back. *)
Lemma create_note_then_get_witness :
  exists note db',
    create_note default_config (create_access_token default_config 2 1000)
      {| NoteCreate.title := Py.lit "hello";
         NoteCreate.content := Py.lit "world" |} 1500 sample_db
    = (Ok note, db')
    /\ notes db' = [alice_note; note]
    /\ Note.user_id note = 2
    /\ get_note default_config (create_access_token default_config 2 1000)
         (Note.id note) 1500 db'
       = (Ok note, db').
Proof.
  destruct (create_note_then_get default_config
              (create_access_token default_config 2 1000)
              {| NoteCreate.title := Py.lit "hello";
                 NoteCreate.content := Py.lit "world" |} 1500 sample_db bob
              eq_refl)
    as (note & db' & H1 & H2 & _ & H3 & _ & _ & _ & _ & _ & H4).
  exists note, db'. auto.
Defined.

(** The first user retitles her note at second 1500. *)
Lemma update_note_by_owner_witness :
  exists note' db',
    update_note default_config (create_access_token default_config 1 1000) 1
      {| NoteUpdate.title := Some (Py.lit "t2"); NoteUpdate.content := None |}
      1500 sample_db
    = (Ok note', db')
    /\ Note.title note' = Py.lit "t2"
    /\ Note.content note' = Py.lit "c"
    /\ Note.updated_at note' = 1500
    /\ get_note_row db' 1 = Some note'.
Proof.
  destruct (update_note_by_owner default_config
              (create_access_token default_config 1 1000) 1
              {| NoteUpdate.title := Some (Py.lit "t2");
                 NoteUpdate.content := None |}
              1500 sample_db alice alice_note eq_refl eq_refl eq_refl)
    as (note' & db' & H1 & _ & _ & _ & Ht & Hc & _ & Hup & Hg & _).
  exists note', db'. repeat split; try assumption.
  apply Hup. left. rewrite Ht. discriminate.
Defined.

(** The first user deletes her note; it is gone for a second delete. *)
Lemma delete_note_by_owner_witness :
  exists db',
    delete_note default_config (create_access_token default_config 1 1000) 1
      1500 sample_db
    = (Ok tt, db')
    /\ get_note_row db' 1 = None
    /\ delete_note default_config (create_access_token default_config 1 1000)
         1 1500 db'
       = (Raise (HTTPException 404 "Note not found"), db').
Proof.
  destruct (delete_note_by_owner default_config
              (create_access_token default_config 1 1000) 1 1500 sample_db
              alice alice_note eq_refl eq_refl eq_refl)
    as (db' & H1 & H2 & _ & _ & _ & H3).
  exists db'. auto.
Defined.

(** Keys stay unique when a third user signs up and when the first user's
    note is deleted. *)
Lemma unique_keys_preserved_witness :
  unique_keys
    (snd (signup sample_digest
            {| SignupRequest.email := Py.lit "c@x.com";
               SignupRequest.password := Py.lit "longenough1" |}
            (Py.lit "salt-c") 300 sample_db))
  /\ unique_keys
       (snd (delete_note default_config
               (create_access_token default_config 1 1000) 1 1500 sample_db)).
Proof.
  destruct (unique_keys_preserved default_config sample_digest sample_db
              unique_keys_sample_db) as (H1 & _ & _ & H4).
  split; [apply H1 | apply H4].
Defined.

Lemma store_integer_small (k : Z) :
  (k <=? 1000000) = true -> k <= MAX_STORE_INTEGER.
Proof. intros H. apply Z.leb_le in H. unfold MAX_STORE_INTEGER. lia. Defined.


(** Two pages of two notes each: the seam falls between two notes updated
    in the same second, and the joined pages are the page of four. *)
Lemma list_notes_pages_concat_witness :
  list_notes default_config sample_ilike
    (create_access_token default_config 1 1000) None 4 0 1500 busy_db
  = (Ok ([note_at 3 1 300; note_at 1 1 200]
         ++ [note_at 2 1 200; note_at 5 1 200]), busy_db).
Proof.
  apply (list_notes_pages_concat default_config sample_ilike
           (create_access_token default_config 1 1000) None 2 2 0 1500
           busy_db [note_at 3 1 300; note_at 1 1 200]
           [note_at 2 1 200; note_at 5 1 200]
           (list_query_valid_page 2 0 eq_refl)
           (list_query_valid_page 2 2 eq_refl)
           (list_query_valid_page 4 0 eq_refl)
           (store_integer_small 2 eq_refl) eq_refl eq_refl).
Defined.

(** The first user logs in at second 1000 and uses the access token at
    second 1500. *)
Lemma login_success_witness :
  login default_config sample_digest
    {| LoginRequest.email := Py.lit "a@x.com";
       LoginRequest.password := Py.lit "longenough1" |} 1000 sample_db
  = (Ok {| TokenResponse.access_token :=
             create_access_token default_config 1 1000;
           TokenResponse.refresh_token :=
             create_refresh_token default_config 1 1000;
           TokenResponse.token_type := "bearer" |}, sample_db)
  /\ get_current_user default_config
       (create_access_token default_config 1 1000) sample_db 1500
     = Ok alice.
Proof.
  destruct (login_success default_config sample_digest
              {| LoginRequest.email := Py.lit "a@x.com";
                 LoginRequest.password := Py.lit "longenough1" |} 1000
              sample_db alice positive_ids_sample_db
              (proj1 unique_keys_sample_db) eq_refl eq_refl)
    as (H1 & H2 & _).
  split; [exact H1|]. apply H2. cbn. lia.
Defined.

(** Tokens for key 7, which no user of the sample store has. *)
Lemma issued_tokens_of_absent_user_witness :
  get_current_user default_config (create_access_token default_config 7 1000)
    sample_db 1500
  = unauthorized "User not found"
  /\ refresh default_config
       {| RefreshRequest.refresh_token :=
            create_refresh_token default_config 7 1000 |} 1500 sample_db
     = (unauthorized "User not found", sample_db).
Proof.
  assert (H0 : 0 <= 7 <= MAX_STORE_INTEGER)
    by (unfold MAX_STORE_INTEGER; lia).
  destruct (issued_tokens_of_absent_user default_config 7 1000 1500 sample_db
              H0 eq_refl) as [H1 H2].
  split; [apply H1 | apply H2]; cbn; lia.
Defined.

Lemma titles_fit_sample_db : titles_fit sample_db.
Proof. unfold titles_fit. cbn. repeat constructor. Defined.

(** A valid create keeps the titles within the column. *)
Lemma titles_fit_preserved_witness :
  titles_fit
    (snd (create_note default_config
            (create_access_token default_config 2 1000)
            {| NoteCreate.title := Py.lit "hello";
               NoteCreate.content := Py.lit "world" |} 1500 sample_db)).
Proof.
  apply (proj1 (titles_fit_preserved default_config sample_db
                  titles_fit_sample_db)).
  unfold NoteCreate_valid. cbn. lia.
Defined.

(** The second user creates a note; the first user's notes are as before. *)
Lemma writes_leave_other_users_notes_witness :
  notes_of 1
    (snd (create_note default_config
            (create_access_token default_config 2 1000)
            {| NoteCreate.title := Py.lit "hello";
               NoteCreate.content := Py.lit "world" |} 1500 sample_db))
  = [alice_note].
Proof.
  assert (Hne : 1 <> User.id bob) by discriminate.
  apply (proj1 (writes_leave_other_users_notes default_config
                  (create_access_token default_config 2 1000) 1500 sample_db
                  bob 1 unique_keys_sample_db eq_refl Hne)).
Defined.

(** The first user sends an update that sets nothing. *)
Lemma update_note_without_change_witness :
  update_note default_config (create_access_token default_config 1 1000) 1
    {| NoteUpdate.title := None; NoteUpdate.content := None |} 1500 sample_db
  = (Ok alice_note, sample_db).
Proof.
  apply (update_note_without_change default_config
           (create_access_token default_config 1 1000) 1
           {| NoteUpdate.title := None; NoteUpdate.content := None |} 1500
           sample_db alice alice_note unique_keys_sample_db eq_refl eq_refl
           eq_refl (or_introl eq_refl) (or_introl eq_refl)).
Defined.

(** The same password, with a NUL character in it, sent with an unknown
    email and with the first user's email. *)
Lemma login_refused_password_reveals_registration_witness :
  login default_config sample_digest
    {| LoginRequest.email := Py.lit "nobody@x.com";
       LoginRequest.password := Py.lit "long" ++ [0%N] ++ Py.lit "enough" |}
    1000 sample_db
  = (Raise (HTTPException 401 "Invalid credentials"), sample_db)
  /\ login default_config sample_digest
       {| LoginRequest.email := Py.lit "a@x.com";
          LoginRequest.password := Py.lit "long" ++ [0%N] ++ Py.lit "enough" |}
       1000 sample_db
     = (Raise ValueError, sample_db).
Proof.
  apply (login_refused_password_reveals_registration default_config
           sample_digest _ _ alice (Py.lit "salt-a")
           (Py.lit "salt-alongenough1")); reflexivity.
Defined.

(** The first user's access token is within both limits and resolves to
    her. *)
Lemma get_current_user_cases_witness :
  get_current_user default_config (create_access_token default_config 1 1000)
    sample_db 1500 = Ok alice
  /\ User.id alice = 1.
Proof.
  apply (get_current_user_cases default_config
           (create_access_token default_config 1 1000) sample_db 1500).
  intros payload s Hd Hs _. vm_compute in Hd. injection Hd as <-.
  injection Hs as <-. split.
  - unfold INT_MAX_STR_DIGITS. cbn. lia.
  - intros n Hn. vm_compute in Hn. injection Hn as <-.
    unfold MAX_STORE_INTEGER. lia.
Defined.
